(** * numbervalidation: the phone-number pipeline of [script.js]

    A shallow embedding of the normalizer, the validator, the batch
    scheduler, the result aggregator and the summary report of
    [script.js], and the properties of these that the specification
    states.

    Conventions of the embedding.
    - A JavaScript string is a [string]: a sequence of code units, here
      restricted to the 8-bit range.  The code only ever tells the ASCII
      digits (regular-expression class [\d]), the white space removed by
      [trim] and the newline apart, so nothing depends on wider units.
    - Counters and array lengths are [nat], and sums and differences of
      them are taken in the integers (they stay far below 2^53, where
      binary64 is exact); [options.batchSize] and the loop bound
      [totalBatches] are values of [number] (an integer, [-0], an infinity
      or [NaN]); clock readings are binary64 values ([spec_float] at
      precision 53), and every division is the division of binary64.
    - The module-level variables of the script form the record [globals];
      every function that touches them takes and returns the record.
    - [isValidAreaCode] and [getStateFromAreaCode] are called by the script
      but defined elsewhere: they are the two methods of the class
      [AreaCodeDirectory]. *)

From Stdlib Require Import Bool Arith ZArith Lia List Ascii String.
From Stdlib Require Import Permutation Sorted.
From Stdlib Require Import SpecFloat DecimalString.
Import ListNotations.

Local Open Scope string_scope.
Local Open Scope nat_scope.

(** ** Strings *)

Module JsString.

(** The regular-expression class [\d]: the ten ASCII digits. *)
Definition is_digit (c : ascii) : bool :=
  let n := nat_of_ascii c in (48 <=? n) && (n <=? 57).

(** [/^\d*$/]: every code unit is a digit. *)
Fixpoint digit_only (s : string) : bool :=
  match s with
  | EmptyString => true
  | String c r => is_digit c && digit_only r
  end.

(** [s.replace(/\D/g, '')]: drop every code unit that is not a digit. *)
Fixpoint remove_non_digits (s : string) : string :=
  match s with
  | EmptyString => EmptyString
  | String c r =>
      if is_digit c then String c (remove_non_digits r)
      else remove_non_digits r
  end.

(** [s.substring(i, j)] for [0 <= i], [0 <= j]: both indices are clamped
    to the length and swapped when [i > j]. *)
Definition substring2 (i j : nat) (s : string) : string :=
  let i' := Nat.min i (length s) in
  let j' := Nat.min j (length s) in
  substring (Nat.min i' j') (Nat.max i' j' - Nat.min i' j') s.

(** [s.substring(i)]: from index [i] to the end. *)
Definition substring1 (i : nat) (s : string) : string :=
  substring2 i (length s) s.

(** [s.startsWith(p)]. *)
Definition startsWith (p s : string) : bool := prefix p s.

(** [c.repeat(n)] for a one-unit string [c]. *)
Fixpoint repeat_char (c : ascii) (n : nat) : string :=
  match n with
  | O => EmptyString
  | S k => String c (repeat_char c k)
  end.

(** [s[i] === c] for a one-unit string literal [c]; [s[i]] is [undefined]
    outside the string, which is equal to no string. *)
Definition char_at_is (i : nat) (s : string) (c : ascii) : bool :=
  match get i s with
  | Some d => Ascii.eqb d c
  | None => false
  end.

(** White space and line terminators removed by [trim], in the 8-bit
    range: TAB, LF, VT, FF, CR, SPACE and NBSP. *)
Definition is_space (c : ascii) : bool :=
  let n := nat_of_ascii c in
  ((9 <=? n) && (n <=? 13)) || (n =? 32) || (n =? 160).

Fixpoint trim_start (s : string) : string :=
  match s with
  | EmptyString => EmptyString
  | String c r => if is_space c then trim_start r else s
  end.

(** Trailing white space: a unit is dropped when it is a space and all
    that follows it has been dropped. *)
Fixpoint trim_end (s : string) : string :=
  match s with
  | EmptyString => EmptyString
  | String c r =>
      match trim_end r with
      | EmptyString => if is_space c then EmptyString else String c EmptyString
      | r' => String c r'
      end
  end.

(** [s.trim()]. *)
Definition trim (s : string) : string := trim_end (trim_start s).

(** [s.split('\n')]: the pieces between newlines; one more piece than
    there are newlines, so never the empty array. *)
Fixpoint split_lines (s : string) : list string :=
  match s with
  | EmptyString => [EmptyString]
  | String c r =>
      if Ascii.eqb c "010"%char then EmptyString :: split_lines r
      else match split_lines r with
           | l :: ls => String c l :: ls
           | [] => [String c EmptyString]
           end
  end.

(** [s.padEnd(n)] and [s.padStart(n)] with the default filler, a space. *)
Definition padEnd (n : nat) (s : string) : string :=
  s ++ repeat_char " "%char (n - length s).

Definition padStart (n : nat) (s : string) : string :=
  repeat_char " "%char (n - length s) ++ s.

End JsString.
Import JsString.

(** ** The area-code directory

    The two functions of the area-code table, which the script calls and
    does not define. *)
Class AreaCodeDirectory := {
  isValidAreaCode : string -> bool;
  getStateFromAreaCode : string -> string
}.

(** A small directory for running the definitions on concrete inputs: three
    area codes with their states, every area code accepted. *)
Definition sample_state (areaCode : string) : string :=
  if String.eqb areaCode "612" then "Minnesota"
  else if String.eqb areaCode "212" then "New York"
  else if String.eqb areaCode "512" then "Texas"
  else "Unknown".

Definition sample_directory : AreaCodeDirectory :=
  {| isValidAreaCode := fun _ => true;
     getStateFromAreaCode := sample_state |}.

(** ** Normalizer and validator *)

Section Validation.
Context {D : AreaCodeDirectory}.

(** [cleanPhoneNumber(number, removePlusOne)]. *)
Definition cleanPhoneNumber (number : string) (removePlusOne : bool) : string :=
  let cleaned := remove_non_digits number in
  let cleaned :=
    if removePlusOne && (length cleaned =? 11) && startsWith "1" cleaned
    then substring1 1 cleaned
    else cleaned in
  let cleaned :=
    if 10 <? length cleaned
    then substring1 (length cleaned - 10) cleaned
    else cleaned in
  cleaned.

(** [/^(\d)\1{9}$/]: one digit, then nine more copies of it, then the end
    of the string. *)
Definition re_all_same (s : string) : bool :=
  match s with
  | EmptyString => false
  | String d r => is_digit d && String.eqb r (repeat_char d 9)
  end.

(** [/^1234567890$/]. *)
Definition re_sequential (s : string) : bool := String.eqb s "1234567890".

(** [/^(\d{3})\1{2}$/]: a group of three digits, then two more copies of
    the group, then the end of the string. *)
Definition re_repeated (s : string) : bool :=
  let g := substring 0 3 s in
  (length g =? 3) && digit_only g && String.eqb s (g ++ g ++ g).

Definition invalidPatterns : list (string -> bool) :=
  [re_all_same; re_sequential; re_repeated].

(** [isValidUSNumber(number)]; the [for ... of] loop over the patterns
    returns [false] at the first one that matches. *)
Definition isValidUSNumber (number : string) : bool :=
  if negb (length number =? 10) then false else
  if char_at_is 0 number "0" || char_at_is 0 number "1" then false else
  let areaCode := substring2 0 3 number in
  if negb (isValidAreaCode areaCode) then false else
  let exchangeCode := substring2 3 6 number in
  if char_at_is 0 exchangeCode "0" || char_at_is 0 exchangeCode "1"
  then false else
  if existsb (fun pattern => pattern number) invalidPatterns then false
  else true.

(** The validator with the pattern [/^1234567890$/] taken out of
    [invalidPatterns], everything else as in [isValidUSNumber]. *)
Definition isValidUSNumber_without_sequential (number : string) : bool :=
  if negb (length number =? 10) then false else
  if char_at_is 0 number "0" || char_at_is 0 number "1" then false else
  let areaCode := substring2 0 3 number in
  if negb (isValidAreaCode areaCode) then false else
  let exchangeCode := substring2 3 6 number in
  if char_at_is 0 exchangeCode "0" || char_at_is 0 exchangeCode "1"
  then false else
  if existsb (fun pattern => pattern number) [re_all_same; re_repeated]
  then false
  else true.

End Validation.

(** ** Numbers

    [number] holds the values that [options.batchSize] (the result of
    [parseInt]: an integer, [-0] or [NaN]) and the quantities computed from
    it in [processInBatches] can take.  The quotient
    [lines.length / batchSize] is rounded to binary64 before [Math.ceil];
    for an array length (below 2^32) and an integer divisor the rounding
    never reaches the next integer, so that [Math.ceil] of it is the exact
    ceiling. *)
Inductive number :=
| Int (z : Z)
| NegZero
| PosInfinity
| NegInfinity
| NaN.

Module Num.
Local Open Scope Z_scope.

(** [Math.ceil(a / b)] for an array length [a]. *)
Definition ceil_div (a : nat) (b : number) : number :=
  match b with
  | NaN => NaN
  | PosInfinity | NegInfinity => Int 0
  | Int 0 => if (a =? 0)%nat then NaN else PosInfinity
  | NegZero => if (a =? 0)%nat then NaN else NegInfinity
  | Int b => Int (- ((- Z.of_nat a) / b))
  end.

(** [i < n] for an integer [i]. *)
Definition lt (i : Z) (n : number) : bool :=
  match n with
  | Int t => i <? t
  | NegZero => i <? 0
  | PosInfinity => true
  | NegInfinity | NaN => false
  end.

(** [i * b] for an integer [i]. *)
Definition mul (i : Z) (b : number) : number :=
  match b with
  | Int b => Int (i * b)
  | NegZero => if i <? 0 then Int 0 else NegZero
  | PosInfinity =>
      if i =? 0 then NaN else if 0 <? i then PosInfinity else NegInfinity
  | NegInfinity =>
      if i =? 0 then NaN else if 0 <? i then NegInfinity else PosInfinity
  | NaN => NaN
  end.

(** [x + y]. *)
Definition add (x y : number) : number :=
  match x, y with
  | NaN, _ | _, NaN => NaN
  | PosInfinity, NegInfinity | NegInfinity, PosInfinity => NaN
  | PosInfinity, _ | _, PosInfinity => PosInfinity
  | NegInfinity, _ | _, NegInfinity => NegInfinity
  | NegZero, NegZero => NegZero
  | NegZero, Int b => Int b
  | Int a, NegZero => Int a
  | Int a, Int b => Int (a + b)
  end.

(** [Math.min(x, n)] for an array length [n]. *)
Definition min (x : number) (n : nat) : number :=
  match x with
  | NaN => NaN
  | NegInfinity => NegInfinity
  | PosInfinity => Int (Z.of_nat n)
  | NegZero => NegZero
  | Int a => Int (Z.min a (Z.of_nat n))
  end.

(** The relative index of [Array.prototype.slice]: the argument is
    truncated to an integer ([NaN] and [-0] to 0), a negative one counts
    from the end, and the result is clamped to [0 .. len]. *)
Definition relative_index (x : number) (len : nat) : nat :=
  match x with
  | NaN | NegZero => 0%nat
  | NegInfinity => 0%nat
  | PosInfinity => len
  | Int a =>
      if a <? 0 then Z.to_nat (Z.max (Z.of_nat len + a) 0)
      else Z.to_nat (Z.min a (Z.of_nat len))
  end.

(** [arr.slice(start, end)]. *)
Definition slice {A : Type} (start finish : number) (arr : list A) : list A :=
  let k := relative_index start (List.length arr) in
  let final := relative_index finish (List.length arr) in
  firstn (final - k) (skipn k arr).

End Num.

(** ** Binary64 arithmetic

    The clock readings of [performance.now()] and what is computed from
    them. *)
Module Float.
Local Open Scope Z_scope.

Definition float := spec_float.
Definition prec : Z := 53.
Definition emax : Z := 1024.

Definition of_Z (z : Z) : float := binary_normalize prec emax z 0 false.
Definition of_nat (n : nat) : float := of_Z (Z.of_nat n).

Definition of_number (x : number) : float :=
  match x with
  | Int z => of_Z z
  | NegZero => S754_zero true
  | PosInfinity => S754_infinity false
  | NegInfinity => S754_infinity true
  | NaN => S754_nan
  end.

Definition sub : float -> float -> float := SFsub prec emax.
Definition mul : float -> float -> float := SFmul prec emax.
Definition div : float -> float -> float := SFdiv prec emax.

(** A finite value (a zero included), as [Number.isFinite]. *)
Definition is_finite (x : float) : bool :=
  match x with
  | S754_zero _ | S754_finite _ _ _ => true
  | S754_infinity _ | S754_nan => false
  end.

(** [Math.round(x)]: the integer nearest to [x], the larger one at a tie;
    [NaN], the infinities and the zeros are returned as they are, and a
    negative [x] that rounds to zero gives [-0]. *)
Definition round (x : float) : float :=
  match x with
  | S754_finite s m e =>
      if 0 <=? e then x
      else
        let sm := if s then Z.neg m else Z.pos m in
        let n := (2 * sm + 2 ^ (- e)) / 2 ^ (1 - e) in
        if n =? 0 then S754_zero s else of_Z n
  | _ => x
  end.

(** The digits of a natural number in base ten. *)
Definition decimal (n : N) : string :=
  DecimalString.NilZero.string_of_uint (N.to_uint n).

(** The integer nearest to [10 * |x|], the larger one at a tie, for a
    finite [x]: the digits that [x.toFixed(1)] prints. *)
Definition tenths (x : float) : N :=
  match x with
  | S754_finite _ m e =>
      if 0 <=? e then Z.to_N (10 * Z.pos m * 2 ^ e)
      else Z.to_N ((2 * 10 * Z.pos m + 2 ^ (- e)) / 2 ^ (1 - e))
  | _ => 0%N
  end.

(** [x.toFixed(1)].  At [10^21] and beyond JavaScript prints the number
    in exponent notation instead; a percentage of two array lengths stays
    far below that, and the digits are printed all the same here. *)
Definition toFixed1 (x : float) : string :=
  match x with
  | S754_nan => "NaN"
  | S754_infinity false => "Infinity"
  | S754_infinity true => "-Infinity"
  | S754_zero _ => "0.0"
  | S754_finite s _ _ =>
      let n := tenths x in
      ((if s then "-" else "")
       ++ decimal (n / 10) ++ "." ++ decimal (n mod 10))%string
  end.

End Float.
Import Float.

(** ** Arrays and objects *)

Module JsArray.

(** [arr.sort(cmp)]: the comparator's result is a number, and an element
    moves behind another only where the result is positive.  The sort of
    the language is stable; this is the stable insertion sort. *)
Fixpoint insert {A : Type} (cmp : A -> A -> Z) (x : A) (l : list A) : list A :=
  match l with
  | [] => [x]
  | y :: r => if (0 <? cmp x y)%Z then y :: insert cmp x r else x :: y :: r
  end.

Definition sort {A : Type} (cmp : A -> A -> Z) (l : list A) : list A :=
  fold_right (insert cmp) [] l.

End JsArray.

(** An object used as a map from strings: its own properties, in the order
    in which they were created.  Properties inherited from
    [Object.prototype] are not part of the model: the keys are the labels
    of the area-code directory. *)
Module JsObject.

Definition t (A : Type) := list (string * A).

(** [o[k]]. *)
Fixpoint get {A : Type} (k : string) (o : t A) : option A :=
  match o with
  | [] => None
  | (k', v) :: r => if String.eqb k' k then Some v else get k r
  end.

(** [o[k] = v]: an existing property keeps its place, a new one goes to
    the end. *)
Fixpoint set {A : Type} (k : string) (v : A) (o : t A) : t A :=
  match o with
  | [] => [(k, v)]
  | (k', v') :: r =>
      if String.eqb k' k then (k', v) :: r else (k', v') :: set k v r
  end.

(** The value of a string of digits. *)
Fixpoint digits_value (acc : N) (s : string) : N :=
  match s with
  | EmptyString => acc
  | String c r => digits_value (10 * acc + (N_of_ascii c - 48))%N r
  end.

(** A key is an array index when it is the canonical decimal form of an
    integer from 0 to 2^32 - 2. *)
Definition array_index (k : string) : option N :=
  match k with
  | EmptyString => None
  | String c r =>
      if digit_only k
         && (negb (Ascii.eqb c "0") || String.eqb r "")
         && (length k <=? 10)
         && (digits_value 0 k <? 4294967295)%N
      then Some (digits_value 0 k) else None
  end.

Definition is_index {A : Type} (e : string * A) : bool :=
  match array_index (fst e) with Some _ => true | None => false end.

Definition index_of {A : Type} (e : string * A) : Z :=
  match array_index (fst e) with Some n => Z.of_N n | None => 0%Z end.

(** [Object.entries(o)]: the array-index keys in ascending order, then
    the other keys in the order of their creation. *)
Definition entries {A : Type} (o : t A) : list (string * A) :=
  JsArray.sort (fun a b => (index_of a - index_of b)%Z) (filter is_index o)
  ++ filter (fun e => negb (is_index e)) o.

End JsObject.

(** ** The aggregate state *)

(** The record pushed for a line: the valid one carries the area code and
    the state, the invalid one does not. *)
Inductive result :=
| ValidResult (original cleaned areaCode state : string)
| InvalidResult (original cleaned : string).

Module Stats.
(** [processedResults.stats]; [states] is the [Set] of state names, kept
    in insertion order without repetition. *)
Record t := mk {
  total : nat;
  valid : nat;
  invalid : nat;
  states : list string
}.

Definition empty : t := mk 0 0 0 [].

(** [states.add(s)]. *)
Definition set_add (s : string) (l : list string) : list string :=
  if existsb (String.eqb s) l then l else l ++ [s].
End Stats.

Module Results.
(** [processedResults]. *)
Record t := mk {
  valid : list result;
  invalid : list result;
  byState : JsObject.t (list result);
  stats : Stats.t
}.

Definition empty : t := mk [] [] [] Stats.empty.

Definition set_total (n : nat) (r : t) : t :=
  mk (valid r) (invalid r) (byState r)
     (Stats.mk n (Stats.valid (stats r)) (Stats.invalid (stats r))
               (Stats.states (stats r))).
End Results.

Module Options.
(** The options read from the page when a run starts. *)
Record t := mk {
  removePlusOne : bool;
  filterInvalid : bool;
  groupByState : bool;
  batchSize : number
}.
End Options.

Section Aggregation.
Context {D : AreaCodeDirectory}.

(** [processSingleNumber(rawNumber, options)], on [processedResults]. *)
Definition processSingleNumber
    (rawNumber : string) (options : Options.t) (pr : Results.t) : Results.t :=
  let cleaned := cleanPhoneNumber rawNumber (Options.removePlusOne options) in
  if isValidUSNumber cleaned then
    let areaCode := substring2 0 3 cleaned in
    let state := getStateFromAreaCode areaCode in
    let result := ValidResult rawNumber cleaned areaCode state in
    let st := Results.stats pr in
    let pr :=
      Results.mk (Results.valid pr ++ [result]) (Results.invalid pr)
        (Results.byState pr)
        (Stats.mk (Stats.total st) (S (Stats.valid st)) (Stats.invalid st)
                  (Stats.set_add state (Stats.states st))) in
    if Options.groupByState options then
      let o := Results.byState pr in
      let o :=
        match JsObject.get state o with
        | None => JsObject.set state [] o
        | Some _ => o
        end in
      let o :=
        match JsObject.get state o with
        | Some numbers => JsObject.set state (numbers ++ [result])%list o
        | None => o
        end in
      Results.mk (Results.valid pr) (Results.invalid pr) o (Results.stats pr)
    else pr
  else
    let st := Results.stats pr in
    Results.mk (Results.valid pr)
      (Results.invalid pr ++ [InvalidResult rawNumber cleaned])
      (Results.byState pr)
      (Stats.mk (Stats.total st) (Stats.valid st) (S (Stats.invalid st))
                (Stats.states st)).

End Aggregation.

(** ** The batch scheduler *)

(** What the page shows, in the order in which it is shown. *)
Inductive effect :=
| ProgressShown (progress : float) (processed validCount : nat)
                (secondsRemaining : float)
    (** [updateProgressUI]: the bar, the two counters and the number in
        "Processing... N seconds remaining" *)
| ResultsShown (final : Results.t)
    (** [finishProcessing]: the final counts, the results section and the
        alert "Processing complete!" *)
| CancelAlert.
    (** [cancelProcessing]: the alert "Processing cancelled." *)

(** A call of [processInBatches] suspended at
    [await new Promise(resolve => setTimeout(resolve, 0))]: its arguments
    and its local variables. *)
Record task := mkTask {
  t_lines : list string;
  t_options : Options.t;
  t_totalBatches : number;
  t_batchIndex : Z
}.

(** The module-level variables of the script, followed by what belongs to
    the host: the queue of pending timers and the effects shown so far.
    [blankSkipped] is a ghost counter: it counts the lines that
    [processBatch] passes over at [if (!line) continue] since the last
    reset, and nothing reads it. *)
Record state := mkState {
  processingActive : bool;
  processingCancelled : bool;
  currentFileContent : option string;
  processedResults : Results.t;
  startTime : float;
  processedCount : nat;
  lastUpdateTime : float;
  timers : list task;
  log : list effect;
  blankSkipped : nat
}.

(** The state of the page once it is loaded. *)
Definition initial : state :=
  mkState false false None Results.empty (S754_zero false) 0 (S754_zero false)
          [] [] 0.

Definition set_processedResults (pr : Results.t) (st : state) : state :=
  mkState (processingActive st) (processingCancelled st)
    (currentFileContent st) pr (startTime st) (processedCount st)
    (lastUpdateTime st) (timers st) (log st) (blankSkipped st).

Definition set_timers (ts : list task) (st : state) : state :=
  mkState (processingActive st) (processingCancelled st)
    (currentFileContent st) (processedResults st) (startTime st)
    (processedCount st) (lastUpdateTime st) ts (log st) (blankSkipped st).

Definition show (e : effect) (st : state) : state :=
  mkState (processingActive st) (processingCancelled st)
    (currentFileContent st) (processedResults st) (startTime st)
    (processedCount st) (lastUpdateTime st) (timers st) (log st ++ [e])
    (blankSkipped st).

(** What the host does to the page. *)
Inductive event :=
| FileLoaded (content : string)
    (** [reader.onload] of [handleFile] *)
| StartClicked (options : Options.t) (t0 t1 : float)
    (** [startProcessing()]; [t0] and [t1] are the readings of
        [performance.now()] in [startProcessing] and in the first
        [updateProgressUI] *)
| CancelClicked
    (** [cancelProcessing()] *)
| TimerFired (now : float).
    (** the oldest pending timer resolves; [now] is the reading of
        [performance.now()] in [updateProgressUI] *)

Section Scheduler.
Context {D : AreaCodeDirectory}.

(** [resetProcessingState()]. *)
Definition resetProcessingState (st : state) : state :=
  mkState (processingActive st) (processingCancelled st)
    (currentFileContent st) Results.empty (startTime st) 0
    (lastUpdateTime st) (timers st) (log st) 0.

(** [processBatch(batch, options)].  It awaits nothing, so it runs from
    its first line to its last without interruption.  The rate display
    of [updateProcessingSpeed], which reads and writes nothing but
    [lastUpdateTime] and the page, is left out. *)
Fixpoint processBatch (batch : list string) (options : Options.t)
    (st : state) : state :=
  match batch with
  | [] => st
  | l :: rest =>
      if processingCancelled st then st
      else
        let line := trim l in
        if String.eqb line "" then
          processBatch rest options
            (mkState (processingActive st) (processingCancelled st)
               (currentFileContent st) (processedResults st) (startTime st)
               (processedCount st) (lastUpdateTime st) (timers st) (log st)
               (S (blankSkipped st)))
        else
          let pr := processSingleNumber line options (processedResults st) in
          processBatch rest options
            (mkState (processingActive st) (processingCancelled st)
               (currentFileContent st) pr (startTime st)
               (S (processedCount st)) (lastUpdateTime st) (timers st)
               (log st) (blankSkipped st))
  end.

(** The estimate of [updateProgressUI]:
    [(total - processed) / (processed / elapsed)].  The two counters are
    integers and so is their difference; the two divisions are those of
    binary64. *)
Definition remaining (total processed : nat) (elapsed : float) : float :=
  Float.div (Float.of_Z (Z.of_nat total - Z.of_nat processed))
            (Float.div (Float.of_nat processed) elapsed).

(** [updateProgressUI(progress, processed)], with the clock at [now]. *)
Definition updateProgressUI (progress : float) (processed : nat)
    (now : float) (st : state) : state :=
  let stats := Results.stats (processedResults st) in
  let elapsed := Float.div (Float.sub now (startTime st)) (Float.of_Z 1000) in
  let remaining := remaining (Stats.total stats) processed elapsed in
  show (ProgressShown progress processed (Stats.valid stats)
          (Float.round remaining)) st.

(** [finishProcessing()]. *)
Definition finishProcessing (st : state) : state :=
  show (ResultsShown (processedResults st))
    (mkState false (processingCancelled st) (currentFileContent st)
       (processedResults st) (startTime st) (processedCount st)
       (lastUpdateTime st) (timers st) (log st) (blankSkipped st)).

(** [cancelProcessing()]. *)
Definition cancelProcessing (st : state) : state :=
  show CancelAlert
    (mkState false true (currentFileContent st) (processedResults st)
       (startTime st) (processedCount st) (lastUpdateTime st) (timers st)
       (log st) (blankSkipped st)).

(** [processInBatches] from the test of its [for] loop, with the local
    variables of [t], up to the next suspension or to its end.  No event
    of the host comes between [processBatch] and [updateProgressUI]: the
    [await] between them resumes before the host is given control. *)
Definition loop (t : task) (now : float) (st : state) : state :=
  let lines := t_lines t in
  let options := t_options t in
  let batchSize := Options.batchSize options in
  let batchIndex := t_batchIndex t in
  if Num.lt batchIndex (t_totalBatches t) then
    if processingCancelled st then finishProcessing st
    else
      let startIdx := Num.mul batchIndex batchSize in
      let endIdx := Num.min (Num.add startIdx batchSize) (List.length lines) in
      let batch := Num.slice startIdx endIdx lines in
      let st := processBatch batch options st in
      let progress :=
        Float.mul
          (Float.div (Float.of_Z (batchIndex + 1))
                     (Float.of_number (t_totalBatches t)))
          (Float.of_Z 100) in
      let st := updateProgressUI progress (processedCount st) now st in
      set_timers (timers st ++ [t]) st
  else finishProcessing st.

(** [processInBatches(lines, options)] up to its first suspension. *)
Definition processInBatches (lines : list string) (options : Options.t)
    (now : float) (st : state) : state :=
  let batchSize := Options.batchSize options in
  let totalBatches := Num.ceil_div (List.length lines) batchSize in
  loop (mkTask lines options totalBatches 0) now st.

(** The suspended call at the head of the timer queue goes on:
    [batchIndex++], then the test of the loop. *)
Definition resume (now : float) (st : state) : state :=
  match timers st with
  | [] => st
  | t :: rest =>
      loop (mkTask (t_lines t) (t_options t) (t_totalBatches t)
                   (t_batchIndex t + 1))
           now (set_timers rest st)
  end.

(** [!currentFileContent]: [null] and the empty string are falsy. *)
Definition no_content (c : option string) : bool :=
  match c with
  | None => true
  | Some s => String.eqb s ""
  end.

(** [startProcessing()], with the options read from the page. *)
Definition startProcessing (options : Options.t) (t0 t1 : float)
    (st : state) : state :=
  if no_content (currentFileContent st) || processingActive st then st
  else
    let st :=
      mkState true false (currentFileContent st) (processedResults st)
        (startTime st) (processedCount st) (lastUpdateTime st) (timers st)
        (log st) (blankSkipped st) in
    let st := resetProcessingState st in
    let lines :=
      match currentFileContent st with
      | Some content => split_lines content
      | None => []
      end in
    let st :=
      set_processedResults
        (Results.set_total (List.length lines) (processedResults st)) st in
    let st :=
      mkState (processingActive st) (processingCancelled st)
        (currentFileContent st) (processedResults st) t0
        (processedCount st) t0 (timers st) (log st) (blankSkipped st) in
    processInBatches lines options t1 st.

Definition step (e : event) (st : state) : state :=
  match e with
  | FileLoaded content =>
      mkState (processingActive st) (processingCancelled st) (Some content)
        (processedResults st) (startTime st) (processedCount st)
        (lastUpdateTime st) (timers st) (log st) (blankSkipped st)
  | StartClicked options t0 t1 => startProcessing options t0 t1 st
  | CancelClicked => cancelProcessing st
  | TimerFired now => resume now st
  end.

(** A sequence of events, from the first to the last. *)
Definition run (es : list event) (st : state) : state :=
  fold_left (fun st e => step e st) es st.

End Scheduler.

(** ** The summary report *)

Section Report.

Definition newline : string := String "010" "".

Definition count_of (e : string * list result) : nat := List.length (snd e).

(** The comparator [(a, b) => b[1].length - a[1].length]. *)
Definition by_count (a b : string * list result) : Z :=
  (Z.of_nat (count_of b) - Z.of_nat (count_of a))%Z.

(** The states of the report, in the order of the report. *)
Definition report_states (pr : Results.t) : list (string * list result) :=
  JsArray.sort by_count (JsObject.entries (Results.byState pr)).

(** The line of one state. *)
Definition state_line (pr : Results.t) (e : string * list result) : string :=
  let percentage :=
    toFixed1
      (Float.mul
         (Float.div (Float.of_nat (count_of e))
                    (Float.of_nat (Stats.valid (Results.stats pr))))
         (Float.of_Z 100)) in
  (padEnd 20 (fst e) ++ ": "
   ++ padStart 8 (decimal (N.of_nat (count_of e)))
   ++ " (" ++ percentage ++ "%)" ++ newline)%string.

(** The part of the report before the states; [date] is
    [new Date().toLocaleString()]. *)
Definition report_header (date : string) (pr : Results.t) : string :=
  let stats := Results.stats pr in
  let report := ("PHONE NUMBER PROCESSING REPORT" ++ newline)%string in
  let report := (report ++ "===============================" ++ newline)%string in
  let report := (report ++ "Generated: " ++ date ++ newline ++ newline)%string in
  let report :=
    (report ++ "Total Numbers Processed: "
     ++ decimal (N.of_nat (Stats.total stats)) ++ newline)%string in
  let report :=
    (report ++ "Valid US Numbers: "
     ++ decimal (N.of_nat (Stats.valid stats)) ++ newline)%string in
  let report :=
    (report ++ "Invalid Numbers: "
     ++ decimal (N.of_nat (Stats.invalid stats)) ++ newline)%string in
  let report :=
    (report ++ "States Found: "
     ++ decimal (N.of_nat (List.length (Stats.states stats)))
     ++ newline ++ newline)%string in
  let report := (report ++ "DISTRIBUTION BY STATE:" ++ newline)%string in
  (report ++ "=====================" ++ newline)%string.

(** [generateSummaryReport()]: [forEach] adds the line of each state to
    the report. *)
Definition generateSummaryReport (date : string) (pr : Results.t) : string :=
  let report := report_header date pr in
  let states := report_states pr in
  fold_left (fun report e => (report ++ state_line pr e)%string) states report.

End Report.

(** ** The properties, as predicates *)

(** All ten digits are the same digit. *)
Definition all_identical_digits (s : string) : Prop :=
  exists d, is_digit d = true /\ s = repeat_char d 10.

(** A group of three digits written three times. *)
Definition repeated_group (s : string) : Prop :=
  exists g, length g = 3 /\ digit_only g = true /\ s = (g ++ g ++ g)%string.

(** A line that [processBatch] passes over: nothing is left of it after
    [trim]. *)
Definition is_blank (l : string) : bool := String.eqb (trim l) "".

Definition count_blank (lines : list string) : nat :=
  List.length (filter is_blank lines).

Definition count_nonblank (lines : list string) : nat :=
  List.length (filter (fun l => negb (is_blank l)) lines).

(** Among neighbours of the report with the same number of records, the
    name of the first is not after the name of the second. *)
Fixpoint ties_by_name (l : list (string * list result)) : bool :=
  match l with
  | a :: (b :: _) as r =>
      (negb (count_of a =? count_of b) || String.leb (fst a) (fst b))
      && ties_by_name r
  | _ => true
  end.

(** The records counted so far: valid, invalid and passed over. *)
Definition accounted (st : state) : nat :=
  Stats.valid (Results.stats (processedResults st))
  + Stats.invalid (Results.stats (processedResults st))
  + blankSkipped st.

(** [finishProcessing] has shown results. *)
Definition is_results (e : effect) : bool :=
  match e with
  | ResultsShown _ => true
  | _ => false
  end.

(** The number of lines that lie before batch [k], for batches of [b]
    lines cut from [n] lines. *)
Definition upto (b : Z) (n : nat) (k : Z) : nat :=
  Z.to_nat (Z.min (k * b) (Z.of_nat n)).

(** The counters of [st] are those of a run over [lines] that has gone
    through the first [m] of them. *)
Definition counted (lines : list string) (m : nat) (st : state) : Prop :=
  Stats.total (Results.stats (processedResults st)) = List.length lines
  /\ Stats.valid (Results.stats (processedResults st))
     + Stats.invalid (Results.stats (processedResults st))
     = count_nonblank (firstn m lines)
  /\ blankSkipped st = count_blank (firstn m lines)
  /\ processedCount st = count_nonblank (firstn m lines).

(** The run is over and its results are the last thing shown. *)
Definition completed (lines : list string) (st : state) : Prop :=
  processingActive st = false
  /\ processingCancelled st = false
  /\ timers st = []
  /\ counted lines (List.length lines) st
  /\ exists shown,
       log st = (shown ++ [ResultsShown (processedResults st)])%list.

(** The order of the report: no state has fewer records than one that
    comes after it. *)
Definition descending (a b : string * list result) : Prop :=
  count_of b <= count_of a.

(** The number of seconds that an effect shows as remaining. *)
Definition seconds_shown (e : effect) : option float :=
  match e with
  | ProgressShown _ _ _ s => Some s
  | _ => None
  end.


(** ** Sample inputs *)

(** Two valid numbers of different states, the one whose state comes later
    in the alphabet first. *)
Definition two_numbers : string :=
  ("2125551234" ++ newline ++ "6125544556")%string.

(** A blank line, then a valid number. *)
Definition blank_then_number : string :=
  ("  " ++ newline ++ "6125544556")%string.

(** All boxes ticked, batches of [b] lines. *)
Definition sample_options (b : Z) : Options.t :=
  Options.mk true true true (Int b).

(** A clock reading of [z] milliseconds. *)
Definition ms (z : Z) : float := Float.of_Z z.

(** The page after the events [es], with the sample directory. *)
Definition sample_run (es : list event) : state :=
  run (D := sample_directory) es initial.

(** ** Downloads, buttons, chart and estimate *)

(** [n.cleaned] of a record. *)
Definition cleaned_of (r : result) : string :=
  match r with
  | ValidResult _ c _ _ => c
  | InvalidResult _ c => c
  end.

(** [n.state] of a record, [undefined] for an invalid one. *)
Definition state_of (r : result) : option string :=
  match r with
  | ValidResult _ _ _ s => Some s
  | InvalidResult _ _ => None
  end.

(** [arr.join('\n')]. *)
Fixpoint join_lines (l : list string) : string :=
  match l with
  | [] => ""
  | x :: r =>
      match r with
      | [] => x
      | _ :: _ => (x ++ newline ++ join_lines r)%string
      end
  end.

(** [s.toLowerCase()] on one code unit of the 8-bit range: the letters A-Z
    and the capital letters of Latin-1 (all of 192-222 but the
    multiplication sign) go 32 places up. *)
Definition to_lower (c : ascii) : ascii :=
  let n := nat_of_ascii c in
  if ((65 <=? n) && (n <=? 90))
     || ((192 <=? n) && (n <=? 222) && negb (n =? 215))
  then ascii_of_nat (n + 32)
  else c.

Fixpoint toLowerCase (s : string) : string :=
  match s with
  | EmptyString => EmptyString
  | String c r => String (to_lower c) (toLowerCase r)
  end.

(** [s.replace(/\s+/g, '-')]: every run of white space becomes one hyphen;
    [in_run] tells that the unit before was white space. *)
Fixpoint hyphenate (in_run : bool) (s : string) : string :=
  match s with
  | EmptyString => EmptyString
  | String c r =>
      if is_space c
      then if in_run then hyphenate true r
           else String "-" (hyphenate true r)
      else String c (hyphenate false r)
  end.

(** A file handed to [downloadFile]: its name and its content. *)
Definition file : Type := string * string.

(** [downloadAllValid()]. *)
Definition downloadAllValid (pr : Results.t) : file :=
  ("all-valid-numbers.txt", join_lines (map cleaned_of (Results.valid pr))).

(** [downloadStateNumbers(state)]; for a [state] that is no key of
    [byState], [numbers] is [undefined] and [numbers.map] throws a
    [TypeError]: that is [None]. *)
Definition downloadStateNumbers (state : string) (pr : Results.t)
    : option file :=
  match JsObject.get state (Results.byState pr) with
  | None => None
  | Some numbers =>
      let content := join_lines (map cleaned_of numbers) in
      let filename :=
        (hyphenate false (toLowerCase state) ++ "-numbers.txt")%string in
      Some (filename, content)
  end.

(** The comparison of [arr.sort()] without a comparator: the strings by
    their code units. *)
Definition compare_strings (a b : string) : Z :=
  match String.compare a b with
  | Lt => (-1)%Z
  | Eq => 0%Z
  | Gt => 1%Z
  end.

(** [Object.keys(o)]. *)
Definition object_keys {A : Type} (o : JsObject.t A) : list string :=
  map fst (JsObject.entries o).

(** [createStateButtons()]: for each button, the state that its click
    downloads and the count that its label shows.  [byState[state]] is
    read for a key of [byState] only. *)
Definition createStateButtons (pr : Results.t) : list (string * nat) :=
  let states :=
    JsArray.sort compare_strings (object_keys (Results.byState pr)) in
  map (fun state =>
         let count :=
           match JsObject.get state (Results.byState pr) with
           | Some numbers => List.length numbers
           | None => 0
           end in
         (state, count))
      states.

(** What [updateChart] writes into the chart: [data.labels] and
    [data.datasets[0].data]. *)
Record chart := mkChart {
  labels : list string;
  data : list nat
}.

(** [updateChart()]; [numbersChart] is [null] until [initializeChart] has
    run. *)
Definition updateChart (numbersChart : option chart) (pr : Results.t)
    : option chart :=
  match numbersChart with
  | None => None
  | Some _ =>
      let states :=
        Num.slice (Int 0) (Int 20)
          (JsArray.sort by_count (JsObject.entries (Results.byState pr))) in
      Some (mkChart (map fst states) (map count_of states))
  end.

(** [Math.ceil(a / b)] for two counts, [b] positive.  For counts below 2^52
    and the two divisors of [estimateProcessingTime] the rounding of the
    quotient does not reach the next integer. *)
Definition ceil_quotient (a b : N) : N := ((a + (b - 1)) / b)%N.

(** [estimateProcessingTime(numLines)]. *)
Definition estimateProcessingTime (numLines : N) : string :=
  let linesPerSecond := 50000%N in
  let seconds := ceil_quotient numLines linesPerSecond in
  if (seconds <? 60)%N then (decimal seconds ++ " seconds")%string
  else
    let minutes := ceil_quotient seconds 60 in
    (decimal minutes ++ " minute"
     ++ (if (1 <? minutes)%N then "s" else ""))%string.

(** ** The records of a run, as predicates *)

(** The lines of a batch one after the other, as [processBatch] treats
    them while the run is not cancelled. *)
Definition processLines {D : AreaCodeDirectory} (lines : list string)
    (options : Options.t) (pr : Results.t) : Results.t :=
  fold_left
    (fun pr l =>
       if is_blank l then pr else processSingleNumber (trim l) options pr)
    lines pr.

(** The state of a valid record is [s]. *)
Definition has_state (s : string) (r : result) : bool :=
  match r with
  | ValidResult _ _ _ s' => String.eqb s' s
  | InvalidResult _ _ => false
  end.

(** A record as [processSingleNumber] pushes it for a number that it finds
    valid. *)
Definition valid_record {D : AreaCodeDirectory} (r : result) : Prop :=
  match r with
  | ValidResult o c a s =>
      (forall b, c = cleanPhoneNumber o b)
      /\ isValidUSNumber c = true
      /\ digit_only c = true
      /\ length c = 10
      /\ a = substring 0 3 c
      /\ s = getStateFromAreaCode a
  | InvalidResult _ _ => False
  end.

(** A record as [processSingleNumber] pushes it for a number that it turns
    down. *)
Definition invalid_record {D : AreaCodeDirectory} (r : result) : Prop :=
  match r with
  | InvalidResult o c =>
      (forall b, c = cleanPhoneNumber o b) /\ isValidUSNumber c = false
  | ValidResult _ _ _ _ => False
  end.

(** The property of [byState]: its keys are all different, and under each
    key there is at least one record, all of them valid records of that
    state. *)
Definition grouped (pr : Results.t) : Prop :=
  NoDup (map fst (Results.byState pr))
  /\ Forall
       (fun e =>
          snd e <> []
          /\ Forall (fun r => In r (Results.valid pr)
                              /\ state_of r = Some (fst e))
                    (snd e))
       (Results.byState pr).

(** [updateProgressUI] has shown the progress. *)
Definition is_progress (e : effect) : bool :=
  match e with
  | ProgressShown _ _ _ _ => true
  | _ => false
  end.

(** The state of a run over [lines], in batches of [b], that has gone
    through batch [k]: its records are those of the lines so far, starting
    from [pr0], and since [log0] it has shown its progress [k + 1] times
    and nothing else. *)
Definition through {D : AreaCodeDirectory} (lines : list string)
    (options : Options.t) (b : Z) (pr0 : Results.t) (log0 : list effect)
    (k : Z) (st : state) : Prop :=
  processedResults st
  = processLines (firstn (upto b (List.length lines) (k + 1)) lines)
                 options pr0
  /\ exists shown,
       log st = (log0 ++ shown)%list
       /\ Z.of_nat (List.length shown) = (k + 1)%Z
       /\ forallb is_progress shown = true.

(** Under every state, [byState] has the valid records of that state, in
    their order, and no key for a state without records. *)
Definition exactly_grouped (pr : Results.t) : Prop :=
  forall s,
    JsObject.get s (Results.byState pr)
    = match filter (has_state s) (Results.valid pr) with
      | [] => None
      | numbers => Some numbers
      end.


(** Ascending order of the names. *)
Definition name_le (a b : string) : Prop := String.leb a b = true.

(** ** The states of a file, in its order *)

(** The state that [processSingleNumber] finds for a line, if it finds the
    line valid. *)
Definition line_state {D : AreaCodeDirectory} (options : Options.t)
    (line : string) : option string :=
  let cleaned := cleanPhoneNumber line (Options.removePlusOne options) in
  if isValidUSNumber cleaned
  then Some (getStateFromAreaCode (substring2 0 3 cleaned))
  else None.

(** The states of the valid lines of a file, one for each such line, in
    the order of the lines. *)
Definition states_in_file {D : AreaCodeDirectory} (options : Options.t)
    (content : string) : list string :=
  flat_map
    (fun line =>
       match line_state options line with
       | Some s => [s]
       | None => []
       end)
    (filter (fun line => negb (String.eqb line ""))
            (map trim (split_lines content))).

(** Each name once, at the place where it comes first. *)
Fixpoint first_occurrences (l : list string) : list string :=
  match l with
  | [] => []
  | s :: r =>
      s :: filter (fun x => negb (String.eqb x s)) (first_occurrences r)
  end.

(** ** More sample inputs *)

(** The file of [two_numbers] is loaded and processed in two batches, to
    the end. *)
Definition completed_events : list event :=
  [FileLoaded two_numbers;
   StartClicked (sample_options 1) (ms 1000) (ms 1016);
   TimerFired (ms 1032); TimerFired (ms 1048)].

(** The same file, loaded and started: the first batch is done and the
    run waits for its timer. *)
Definition started_events : list event :=
  [FileLoaded two_numbers;
   StartClicked (sample_options 1) (ms 1000) (ms 1016)].

(** * Properties of the normalizer and the validator *)

Module StringFacts.

Lemma length_append (s t : string) :
  length (s ++ t) = length s + length t.
Proof. induction s as [|c s IH]; simpl; [reflexivity | now rewrite IH]. Qed.

Lemma length_repeat_char (c : ascii) (n : nat) :
  length (repeat_char c n) = n.
Proof. induction n as [|n IH]; simpl; [reflexivity | now rewrite IH]. Qed.

Lemma char_at_is_true (i : nat) (s : string) (c : ascii) :
  char_at_is i s c = true <-> get i s = Some c.
Proof.
  unfold char_at_is. destruct (get i s) as [d|].
  - rewrite Ascii.eqb_eq. split; congruence.
  - split; discriminate.
Qed.

Lemma char_at_is_false (i : nat) (s : string) (c : ascii) :
  char_at_is i s c = false <-> get i s <> Some c.
Proof.
  rewrite <- char_at_is_true. destruct (char_at_is i s c); split; congruence.
Qed.

Lemma remove_non_digits_digit_only (s : string) :
  digit_only s = true -> remove_non_digits s = s.
Proof.
  induction s as [|c s IH]; simpl; [reflexivity|].
  intros H. apply andb_true_iff in H as [Hc Hs].
  rewrite Hc, (IH Hs). reflexivity.
Qed.

Lemma length_3_inv (g : string) :
  length g = 3 ->
  exists a b c, g = String a (String b (String c "")).
Proof.
  intros H.
  destruct g as [|a [|b [|c [|d g]]]]; try discriminate H.
  now exists a, b, c.
Qed.

Lemma length_10_inv (s : string) :
  length s = 10 ->
  exists a0 a1 a2 a3 a4 a5 a6 a7 a8 a9,
    s = String a0 (String a1 (String a2 (String a3 (String a4
        (String a5 (String a6 (String a7 (String a8 (String a9 ""))))))))).
Proof.
  intros H.
  destruct s as [|a0 [|a1 [|a2 [|a3 [|a4 [|a5 [|a6 [|a7 [|a8 [|a9 [|b s]]]]]]]]]]];
    try discriminate H.
  now exists a0, a1, a2, a3, a4, a5, a6, a7, a8, a9.
Qed.

End StringFacts.
Import StringFacts.

Section ValidationFacts.
Context {D : AreaCodeDirectory}.

Lemma re_all_same_spec (s : string) :
  re_all_same s = true <-> all_identical_digits s.
Proof.
  unfold re_all_same, all_identical_digits. split.
  - destruct s as [|d r]; [discriminate|].
    intros H. apply andb_true_iff in H as [Hd Hr].
    apply String.eqb_eq in Hr. exists d. split; [exact Hd|].
    simpl. now rewrite Hr.
  - intros [d [Hd ->]]. cbn [repeat_char]. rewrite Hd. cbn [andb].
    apply String.eqb_refl.
Qed.

Lemma re_sequential_spec (s : string) :
  re_sequential s = true <-> s = "1234567890".
Proof. apply String.eqb_eq. Qed.

Lemma re_repeated_spec (s : string) :
  re_repeated s = true <-> repeated_group s.
Proof.
  unfold re_repeated, repeated_group. split.
  - intros H. apply andb_true_iff in H as [H Hs].
    apply andb_true_iff in H as [Hl Hd].
    apply Nat.eqb_eq in Hl. apply String.eqb_eq in Hs.
    exists (substring 0 3 s). auto.
  - intros [g [Hl [Hd ->]]].
    destruct (length_3_inv g Hl) as [a [b [c ->]]].
    cbn [substring append]. rewrite Hd. cbn [length Nat.eqb andb].
    apply String.eqb_refl.
Qed.

Lemma re_repeated_length (s : string) :
  re_repeated s = true -> length s = 9.
Proof.
  intros H. apply re_repeated_spec in H as [g [Hl [_ ->]]].
  rewrite !length_append, Hl. reflexivity.
Qed.

Lemma re_sequential_starts_with_1 (s : string) :
  re_sequential s = true -> char_at_is 0 s "1" = true.
Proof. intros H. apply re_sequential_spec in H. now subst s. Qed.

(** The validator as the conjunction of its tests. *)
Lemma isValidUSNumber_tests (number : string) :
  isValidUSNumber number = true <->
  (length number =? 10) = true
  /\ char_at_is 0 number "0" = false
  /\ char_at_is 0 number "1" = false
  /\ isValidAreaCode (substring2 0 3 number) = true
  /\ char_at_is 0 (substring2 3 6 number) "0" = false
  /\ char_at_is 0 (substring2 3 6 number) "1" = false
  /\ re_all_same number = false
  /\ re_sequential number = false
  /\ re_repeated number = false.
Proof.
  unfold isValidUSNumber, invalidPatterns. cbn [existsb].
  destruct (length number =? 10); cbn [negb];
    [|split; [discriminate | intros [H _]; discriminate H]].
  destruct (char_at_is 0 number "0"); cbn [orb];
    [split; [discriminate | intros (_ & H & _); discriminate H]|].
  destruct (char_at_is 0 number "1"); cbn [orb];
    [split; [discriminate | intros (_ & _ & H & _); discriminate H]|].
  destruct (isValidAreaCode (substring2 0 3 number)); cbn [negb];
    [|split; [discriminate | intros (_ & _ & _ & H & _); discriminate H]].
  destruct (char_at_is 0 (substring2 3 6 number) "0"); cbn [orb];
    [split; [discriminate | intros (_ & _ & _ & _ & H & _); discriminate H]|].
  destruct (char_at_is 0 (substring2 3 6 number) "1"); cbn [orb];
    [split; [discriminate
            | intros (_ & _ & _ & _ & _ & H & _); discriminate H]|].
  destruct (re_all_same number); cbn [orb];
    [split; [discriminate
            | intros (_ & _ & _ & _ & _ & _ & H & _); discriminate H]|].
  destruct (re_sequential number); cbn [orb];
    [split; [discriminate
            | intros (_ & _ & _ & _ & _ & _ & _ & H & _); discriminate H]|].
  destruct (re_repeated number); cbn [orb];
    [split; [discriminate
            | intros (_ & _ & _ & _ & _ & _ & _ & _ & H); discriminate H]|].
  split; [intros _; repeat split | reflexivity].
Qed.

Lemma exchange_first_digit (s : string) :
  length s = 10 ->
  get 0 (substring2 3 6 s) = get 3 s
  /\ substring2 0 3 s = substring 0 3 s.
Proof.
  intros H.
  destruct (length_10_inv s H)
    as (a0 & a1 & a2 & a3 & a4 & a5 & a6 & a7 & a8 & a9 & ->).
  split; reflexivity.
Qed.

(** C1. [isValidUSNumber(s)] is true exactly when [s] has 10 code units,
    its first one is neither '0' nor '1', its first three pass
    [isValidAreaCode], its fourth one (the first of the exchange code) is
    neither '0' nor '1', and [s] is none of: ten times the same digit,
    the string "1234567890", a group of three digits written three times.
    For a string whose length is not 10 it is false. *)
Theorem isValidUSNumber_iff (s : string) :
  (isValidUSNumber s = true <->
   length s = 10
   /\ get 0 s <> Some "0"%char /\ get 0 s <> Some "1"%char
   /\ isValidAreaCode (substring 0 3 s) = true
   /\ get 3 s <> Some "0"%char /\ get 3 s <> Some "1"%char
   /\ ~ all_identical_digits s
   /\ s <> "1234567890"
   /\ ~ repeated_group s)
  /\ (length s <> 10 -> isValidUSNumber s = false).
Proof.
  split.
  - rewrite isValidUSNumber_tests.
    rewrite Nat.eqb_eq, !char_at_is_false.
    rewrite <- re_all_same_spec, <- re_sequential_spec, <- re_repeated_spec.
    rewrite !not_true_iff_false.
    split; intros (L & H); split; try exact L;
      destruct (exchange_first_digit s L) as [E3 EA];
      [rewrite <- E3, <- EA | rewrite E3, EA]; exact H.
  - intros H. apply Nat.eqb_neq in H.
    unfold isValidUSNumber. now rewrite H.
Qed.

(** C2. The pattern [/^(\d{3})\1{2}$/] matches strings of nine code units
    only: on a string of length 10, the only ones that reach it, it never
    matches, and rejects nothing. *)
Theorem repeated_pattern_never_matches (s : string) :
  length s = 10 -> re_repeated s = false.
Proof.
  intros H. destruct (re_repeated s) eqn:E; [|reflexivity].
  apply re_repeated_length in E. congruence.
Qed.

Lemma isValidUSNumber_length (s : string) :
  isValidUSNumber s = true -> length s = 10.
Proof.
  intros H. apply isValidUSNumber_tests in H as [H _].
  now apply Nat.eqb_eq.
Qed.

(** C9. A string of digits that has exactly ten of them, as every string
    of digits that [isValidUSNumber] accepts has, is left as it is by
    [cleanPhoneNumber], whether the country code is to be removed or
    not. *)
Theorem cleanPhoneNumber_fixed (s : string) (b : bool) :
  digit_only s = true ->
  length s = 10 \/ isValidUSNumber s = true ->
  cleanPhoneNumber s b = s.
Proof.
  intros Hd H.
  assert (Hl : length s = 10)
    by (destruct H as [H|H]; [exact H | now apply isValidUSNumber_length]).
  unfold cleanPhoneNumber.
  rewrite (remove_non_digits_digit_only s Hd), Hl.
  cbn [Nat.eqb Nat.ltb Nat.leb andb].
  rewrite andb_false_r. cbn [andb]. rewrite Hl. reflexivity.
Qed.

(** C10. Taking [/^1234567890$/] out of the patterns changes nothing: the
    string "1234567890" begins with '1' and is turned down before the
    patterns are tried. *)
Theorem sequential_pattern_redundant (s : string) :
  isValidUSNumber_without_sequential s = isValidUSNumber s.
Proof.
  unfold isValidUSNumber_without_sequential, isValidUSNumber,
    invalidPatterns.
  destruct (negb (length s =? 10)); [reflexivity|].
  destruct (char_at_is 0 s "0"); [reflexivity|]. cbn [orb].
  destruct (char_at_is 0 s "1") eqn:H1; [reflexivity|].
  assert (Hs : re_sequential s = false).
  { destruct (re_sequential s) eqn:E; [|reflexivity].
    apply re_sequential_starts_with_1 in E. congruence. }
  cbn [existsb]. rewrite Hs. reflexivity.
Qed.

End ValidationFacts.

(** * Properties of the batch scheduler *)

Section SchedulerFacts.
Context {D : AreaCodeDirectory}.

Lemma split_lines_nonempty (s : string) : split_lines s <> [].
Proof.
  destruct s as [|c r]; simpl; [discriminate|].
  destruct (Ascii.eqb c "010"); [discriminate|].
  destruct (split_lines r); discriminate.
Qed.

Lemma count_blank_nonblank (lines : list string) :
  count_nonblank lines + count_blank lines = List.length lines.
Proof.
  unfold count_nonblank, count_blank.
  induction lines as [|l lines IH]; simpl; [reflexivity|].
  destruct (is_blank l); simpl; lia.
Qed.

Lemma count_blank_app (l1 l2 : list string) :
  count_blank (l1 ++ l2) = count_blank l1 + count_blank l2.
Proof. unfold count_blank. now rewrite filter_app, length_app. Qed.

Lemma count_nonblank_app (l1 l2 : list string) :
  count_nonblank (l1 ++ l2) = count_nonblank l1 + count_nonblank l2.
Proof. unfold count_nonblank. now rewrite filter_app, length_app. Qed.

(** *** One record *)

Lemma processSingleNumber_total (raw : string) (o : Options.t) (pr : Results.t) :
  Stats.total (Results.stats (processSingleNumber raw o pr))
  = Stats.total (Results.stats pr).
Proof.
  unfold processSingleNumber.
  destruct (isValidUSNumber _); [destruct (Options.groupByState o)|];
    reflexivity.
Qed.

Lemma processSingleNumber_counts (raw : string) (o : Options.t) (pr : Results.t) :
  Stats.valid (Results.stats (processSingleNumber raw o pr))
  + Stats.invalid (Results.stats (processSingleNumber raw o pr))
  = S (Stats.valid (Results.stats pr) + Stats.invalid (Results.stats pr)).
Proof.
  unfold processSingleNumber.
  destruct (isValidUSNumber _); [destruct (Options.groupByState o)|];
    cbn [Results.stats Stats.valid Stats.invalid]; lia.
Qed.

(** *** One batch *)

(** What [processBatch] leaves alone. *)
Lemma processBatch_frame (batch : list string) (o : Options.t) (st : state) :
  let st' := processBatch batch o st in
  processingActive st' = processingActive st
  /\ processingCancelled st' = processingCancelled st
  /\ currentFileContent st' = currentFileContent st
  /\ timers st' = timers st
  /\ log st' = log st
  /\ Stats.total (Results.stats (processedResults st'))
     = Stats.total (Results.stats (processedResults st)).
Proof.
  revert st. induction batch as [|l rest IH]; intros st; cbn zeta.
  - repeat split.
  - cbn [processBatch].
    destruct (processingCancelled st) eqn:C; [repeat split; exact C|].
    destruct (String.eqb (trim l) "").
    + match goal with |- context [processBatch rest o ?s] =>
        destruct (IH s) as (A & B & E & F & G & H) end.
      cbn in A, B, E, F, G, H. rewrite A, B, E, F, G, H.
      repeat split; exact C.
    + match goal with |- context [processBatch rest o ?s] =>
        destruct (IH s) as (A & B & E & F & G & H) end.
      cbn [processingActive processingCancelled currentFileContent timers
           log processedResults] in A, B, E, F, G, H.
      rewrite A, B, E, F, G, H, processSingleNumber_total.
      repeat split; exact C.
Qed.

(** While the run is not cancelled, every line of the batch is counted:
    as a record, valid or invalid, or as passed over. *)
Lemma processBatch_counts (batch : list string) (o : Options.t) (st : state) :
  processingCancelled st = false ->
  let st' := processBatch batch o st in
  let s := Results.stats (processedResults st) in
  let s' := Results.stats (processedResults st') in
  Stats.valid s' + Stats.invalid s'
  = Stats.valid s + Stats.invalid s + count_nonblank batch
  /\ blankSkipped st' = blankSkipped st + count_blank batch
  /\ processedCount st' = processedCount st + count_nonblank batch.
Proof.
  revert st. induction batch as [|l rest IH]; intros st C; cbn zeta.
  - cbn. repeat split; lia.
  - cbn [processBatch]. rewrite C.
    change (String.eqb (trim l) "") with (is_blank l).
    unfold count_nonblank, count_blank in *. cbn [filter].
    destruct (is_blank l) eqn:B; cbn [negb];
      match goal with |- context [processBatch rest o ?s] =>
        destruct (IH s eq_refl) as (H1 & H2 & H3) end;
      cbn [processedResults blankSkipped processedCount] in H1, H2, H3;
      rewrite H1, H2, H3, ?processSingleNumber_counts;
      cbn [List.length]; repeat split; lia.
Qed.

(** *** The loop *)

Lemma loop_finished (t : task) (now : float) (st : state) :
  Num.lt (t_batchIndex t) (t_totalBatches t) = false ->
  loop t now st = finishProcessing st.
Proof. intros H. unfold loop. now rewrite H. Qed.

Lemma loop_cancelled (t : task) (now : float) (st : state) :
  processingCancelled st = true ->
  loop t now st = finishProcessing st.
Proof.
  intros H. unfold loop. rewrite H.
  now destruct (Num.lt (t_batchIndex t) (t_totalBatches t)).
Qed.

(** C3. When a suspended run goes on after [cancelProcessing] has set the
    flag, it leaves the loop and calls [finishProcessing]: the results
    are shown for the cancelled run too. *)
Theorem cancelled_run_is_finished (t : task) (rest : list task)
    (now : float) (st : state) :
  timers st = t :: rest ->
  processingCancelled st = true ->
  log (resume now st) = (log st ++ [ResultsShown (processedResults st)])%list.
Proof.
  intros Ht Hc. unfold resume. rewrite Ht.
  rewrite loop_cancelled by exact Hc. reflexivity.
Qed.

(** C8. [startProcessing] called while a run is active returns at once:
    no variable of the script changes, no timer is set and nothing is
    shown. *)
Theorem startProcessing_while_active (options : Options.t) (t0 t1 : float)
    (st : state) :
  processingActive st = true ->
  step (StartClicked options t0 t1) st = st.
Proof.
  intros H. cbn [step]. unfold startProcessing.
  now rewrite H, orb_true_r.
Qed.

(** *** A run from its start *)

Lemma run_cons (e : event) (es : list event) (st : state) :
  run (e :: es) st = run es (step e st).
Proof. reflexivity. Qed.

Lemma resume_idle (now : float) (st : state) :
  timers st = [] -> resume now st = st.
Proof. intros H. unfold resume. now rewrite H. Qed.

Lemma run_timers_idle (nows : list float) (st : state) :
  timers st = [] -> run (map TimerFired nows) st = st.
Proof.
  induction nows as [|now nows IH]; intros H; [reflexivity|].
  cbn [map]. rewrite run_cons. cbn [step].
  rewrite resume_idle by exact H. now apply IH.
Qed.

(** The state in which [startProcessing] enters [processInBatches]. *)
Lemma startProcessing_enters (options : Options.t) (t0 t1 : float)
    (content : string) (st0 : state) :
  currentFileContent st0 = Some content ->
  content <> "" ->
  processingActive st0 = false ->
  exists st,
    startProcessing options t0 t1 st0
    = processInBatches (split_lines content) options t1 st
    /\ processingActive st = true
    /\ processingCancelled st = false
    /\ timers st = timers st0
    /\ log st = log st0
    /\ processedResults st
       = Results.set_total (List.length (split_lines content)) Results.empty
    /\ processedCount st = 0
    /\ blankSkipped st = 0.
Proof.
  intros Hc Hne Ha. unfold startProcessing.
  rewrite Hc, Ha. cbn [no_content]. apply String.eqb_neq in Hne.
  rewrite Hne. cbn [orb].
  eexists. split; [reflexivity|].
  cbn [processingActive processingCancelled timers log processedResults
       processedCount blankSkipped resetProcessingState
       set_processedResults].
  repeat split.
Qed.

Lemma firstn_plus {A : Type} (a c : nat) (l : list A) :
  firstn (a + c) l = (firstn a l ++ firstn c (skipn a l))%list.
Proof.
  revert l. induction a as [|a IH]; intros l; [reflexivity|].
  destruct l as [|x l]; cbn [Nat.add firstn skipn app].
  - now rewrite firstn_nil.
  - now rewrite IH.
Qed.

Section PositiveBatch.
Variable lines : list string.
Variable options : Options.t.
Variable b : Z.
Hypothesis Hb : Options.batchSize options = Int b.
Hypothesis Hpos : (1 <= b)%Z.

Local Abbreviation n := (List.length lines).
Local Abbreviation totalBatches := (- ((- Z.of_nat n) / b))%Z.
Local Abbreviation task_at k := (mkTask lines options (Int totalBatches) k).

Lemma ceil_div_positive :
  Num.ceil_div n (Options.batchSize options) = Int totalBatches.
Proof. rewrite Hb. unfold Num.ceil_div. destruct b; [lia | reflexivity | lia]. Qed.

Lemma totalBatches_bounds (k : Z) :
  ((k < totalBatches <-> k * b < Z.of_nat n))%Z.
Proof.
  pose proof (Z.div_mod (- Z.of_nat n) b ltac:(lia)) as E.
  pose proof (Z.mod_pos_bound (- Z.of_nat n) b ltac:(lia)) as B.
  split; intros H; nia.
Qed.

Lemma upto_mono (k : Z) : (0 <= k)%Z -> upto b n k <= upto b n (k + 1).
Proof. intros H. unfold upto. nia. Qed.

Lemma upto_0 : upto b n 0 = 0.
Proof. unfold upto. lia. Qed.

Lemma upto_last (k : Z) :
  (0 <= k)%Z -> (totalBatches <= k)%Z -> upto b n k = n.
Proof.
  intros H0 H. unfold upto.
  assert (~ (k * b < Z.of_nat n))%Z
    by (rewrite <- totalBatches_bounds; lia).
  lia.
Qed.

(** The slice that the loop takes for batch [k]. *)
Lemma batch_slice (k : Z) :
  (0 <= k)%Z ->
  let startIdx := Num.mul k (Options.batchSize options) in
  let endIdx :=
    Num.min (Num.add startIdx (Options.batchSize options)) n in
  Num.slice startIdx endIdx lines
  = firstn (upto b n (k + 1) - upto b n k) (skipn (upto b n k) lines).
Proof.
  intros H. rewrite Hb. cbn [Num.mul Num.add Num.min].
  unfold Num.slice, Num.relative_index, upto.
  destruct (Z.ltb_spec (k * b) 0); [nia|].
  destruct (Z.ltb_spec (Z.min (k * b + b) (Z.of_nat n)) 0); [nia|].
  replace (Z.min (Z.min (k * b + b) (Z.of_nat n)) (Z.of_nat n))
    with (Z.min ((k + 1) * b) (Z.of_nat n)) by nia.
  reflexivity.
Qed.

Lemma firstn_next_batch (k : Z) :
  (0 <= k)%Z ->
  firstn (upto b n (k + 1)) lines
  = (firstn (upto b n k) lines
     ++ firstn (upto b n (k + 1) - upto b n k) (skipn (upto b n k) lines))%list.
Proof.
  intros H. rewrite <- firstn_plus. f_equal.
  pose proof (upto_mono k H). lia.
Qed.

(** One turn of the loop that processes batch [k]. *)
Lemma loop_batch (k : Z) (now : float) (st : state) :
  (0 <= k < totalBatches)%Z ->
  timers st = [] ->
  processingActive st = true ->
  processingCancelled st = false ->
  counted lines (upto b n k) st ->
  let st' := loop (task_at k) now st in
  timers st' = [task_at k]
  /\ processingActive st' = true
  /\ processingCancelled st' = false
  /\ counted lines (upto b n (k + 1)) st'.
Proof.
  intros Hk Ht Ha Hc (C1 & C2 & C3 & C4). cbn zeta.
  unfold loop. cbn [t_batchIndex t_totalBatches t_lines t_options Num.lt].
  destruct (Z.ltb_spec k totalBatches); [|lia].
  rewrite Hc. rewrite batch_slice by lia.
  set (batch := firstn _ (skipn _ lines)).
  destruct (processBatch_frame batch options st)
    as (F1 & F2 & F3 & F4 & F5 & F6).
  destruct (processBatch_counts batch options st Hc) as (N1 & N2 & N3).
  cbn zeta in *.
  unfold updateProgressUI, show, set_timers.
  cbn [timers processingActive processingCancelled].
  rewrite F4, Ht, F1, F2.
  repeat split; try assumption.
  - cbn [processedResults]. congruence.
  - cbn [processedResults]. rewrite N1, C2.
    rewrite (firstn_next_batch k) by lia.
    now rewrite count_nonblank_app.
  - cbn [blankSkipped]. rewrite N2, C3.
    rewrite (firstn_next_batch k) by lia.
    now rewrite count_blank_app.
  - cbn [processedCount]. rewrite N3, C4.
    rewrite (firstn_next_batch k) by lia.
    now rewrite count_nonblank_app.
Qed.

(** The turn of the loop after the last batch. *)
Lemma loop_end (k : Z) (now : float) (st : state) :
  (0 <= k)%Z -> (totalBatches <= k)%Z ->
  timers st = [] ->
  processingCancelled st = false ->
  counted lines (upto b n k) st ->
  completed lines (loop (task_at k) now st).
Proof.
  intros H0 Hk Ht Hc (C1 & C2 & C3 & C4).
  rewrite loop_finished
    by (cbn [t_batchIndex t_totalBatches Num.lt]; lia).
  rewrite (upto_last k H0 Hk) in C2, C3, C4.
  unfold completed, counted, finishProcessing, show.
  cbn [processingActive processingCancelled timers processedResults
       blankSkipped processedCount log].
  repeat split; try assumption.
  now exists (log st).
Qed.

(** A suspended run that is resumed often enough comes to its end. *)
Lemma run_to_completion (nows : list float) :
  forall (k : Z) (st : state),
    (0 <= k < totalBatches)%Z ->
    timers st = [task_at k] ->
    processingActive st = true ->
    processingCancelled st = false ->
    counted lines (upto b n (k + 1)) st ->
    (totalBatches - k <= Z.of_nat (List.length nows))%Z ->
    completed lines (run (map TimerFired nows) st).
Proof.
  induction nows as [|now nows IH]; intros k st Hk Ht Ha Hc Hn Hlen.
  - cbn [List.length] in Hlen. lia.
  - cbn [map]. rewrite run_cons. cbn [step]. unfold resume.
    rewrite Ht. cbn [t_lines t_options t_totalBatches t_batchIndex].
    destruct (Z.lt_ge_cases (k + 1) totalBatches) as [Hlt|Hge].
    + destruct (loop_batch (k + 1) now (set_timers [] st))
        as (L1 & L2 & L3 & L4); try assumption; try reflexivity; [lia|].
      apply (IH (k + 1)%Z); try assumption; [lia|].
      cbn [List.length] in Hlen. lia.
    + assert (Hdone : completed lines
                (loop (task_at (k + 1)) now (set_timers [] st))).
      { apply loop_end; try assumption; try reflexivity; lia. }
      rewrite run_timers_idle; [exact Hdone|].
      now destruct Hdone as (_ & _ & Hd & _).
Qed.

(** The whole run, from the state in which [processInBatches] is
    entered. *)
Lemma processInBatches_completes (t1 : float) (nows : list float)
    (st : state) :
  lines <> [] ->
  timers st = [] ->
  processingActive st = true ->
  processingCancelled st = false ->
  counted lines 0 st ->
  (Z.of_nat n <= b * Z.of_nat (List.length nows))%Z ->
  completed lines
    (run (map TimerFired nows) (processInBatches lines options t1 st)).
Proof.
  intros Hne Ht Ha Hc Hn Hlen.
  unfold processInBatches. rewrite ceil_div_positive.
  assert (Hn1 : (0 < Z.of_nat n)%Z) by (destruct lines; [easy | cbn; lia]).
  assert (H0 : (0 < totalBatches)%Z)
    by (apply totalBatches_bounds; lia).
  rewrite <- upto_0 in Hn.
  destruct (loop_batch 0 t1 st) as (L1 & L2 & L3 & L4);
    try assumption; [lia|].
  apply (run_to_completion nows 0); try assumption; [lia|].
  assert (~ (Z.of_nat (List.length nows) < totalBatches))%Z; [|lia].
  rewrite totalBatches_bounds. lia.
Qed.

End PositiveBatch.

(** C5. In a run with a batch size of at least 1 that is started with a
    file loaded, no run active and no timer of an earlier run pending,
    that is not cancelled and has been resumed until its end, the valid
    records, the invalid records and the lines passed over as blank add up
    to [stats.total], the number of lines of the input, set when the run
    started. *)
Theorem completed_run_accounts_for_every_line
    (content : string) (options : Options.t) (b : Z) (t0 t1 : float)
    (nows : list float) (st0 : state) :
  Options.batchSize options = Int b ->
  (1 <= b)%Z ->
  currentFileContent st0 = Some content ->
  content <> "" ->
  processingActive st0 = false ->
  timers st0 = [] ->
  (Z.of_nat (List.length (split_lines content))
   <= b * Z.of_nat (List.length nows))%Z ->
  let st := run (StartClicked options t0 t1 :: map TimerFired nows) st0 in
  let stats := Results.stats (processedResults st) in
  Stats.valid stats + Stats.invalid stats + blankSkipped st
  = Stats.total stats
  /\ Stats.total stats = List.length (split_lines content)
  /\ blankSkipped st = count_blank (split_lines content)
  /\ processingActive st = false
  /\ exists shown,
       log st = (shown ++ [ResultsShown (processedResults st)])%list.
Proof.
  intros Hb Hpos Hc Hne Ha Ht Hlen. cbn zeta.
  rewrite run_cons. cbn [step].
  destruct (startProcessing_enters options t0 t1 content st0 Hc Hne Ha)
    as (st & -> & S1 & S2 & S3 & S4 & S5 & S6 & S7).
  assert (Hdone : completed (split_lines content)
            (run (map TimerFired nows)
               (processInBatches (split_lines content) options t1 st))).
  { apply (processInBatches_completes _ options b Hb Hpos);
      try assumption; [apply split_lines_nonempty | congruence |].
    unfold counted. rewrite S5, S6, S7. repeat split. }
  destruct Hdone as (D1 & D2 & D3 & (C1 & C2 & C3 & C4) & D5).
  rewrite firstn_all in C2, C3.
  repeat split; try assumption.
  rewrite C1, C2, C3. apply count_blank_nonblank.
Qed.

(** *** A batch size that is not positive *)


Section ZeroBatch.
Variable lines : list string.
Variable options : Options.t.
Hypothesis Hb : Options.batchSize options = Int 0.

Local Abbreviation spinning_task k := (mkTask lines options PosInfinity k).



End ZeroBatch.


End SchedulerFacts.

(** * Properties of the binary64 operations *)

Module FloatFacts.
Local Open Scope Z_scope.

Lemma digits2_pos_bound (p : positive) :
  2 ^ (Z.pos (digits2_pos p) - 1) <= Z.pos p < 2 ^ Z.pos (digits2_pos p).
Proof.
  induction p as [p IH|p IH|]; cbn [digits2_pos].
  - rewrite Pos2Z.inj_succ.
    replace (Z.succ (Z.pos (digits2_pos p)) - 1)
      with (Z.succ (Z.pos (digits2_pos p) - 1)) by lia.
    rewrite !Z.pow_succ_r by lia. lia.
  - rewrite Pos2Z.inj_succ.
    replace (Z.succ (Z.pos (digits2_pos p)) - 1)
      with (Z.succ (Z.pos (digits2_pos p) - 1)) by lia.
    rewrite !Z.pow_succ_r by lia. lia.
  - cbn. lia.
Qed.

Lemma digits2_pos_iter_xO (p q : positive) :
  digits2_pos (Pos.iter xO p q) = (digits2_pos p + q)%positive.
Proof.
  induction q as [|q IH] using Pos.peano_ind.
  - cbn. lia.
  - rewrite Pos.iter_succ. cbn [digits2_pos]. rewrite IH. lia.
Qed.

Lemma digits2_pos_small (p : positive) :
  Z.pos p < 2 ^ 53 -> Z.pos (digits2_pos p) <= 53.
Proof.
  intros H. pose proof (digits2_pos_bound p) as [L _].
  destruct (Z.le_gt_cases (Z.pos (digits2_pos p)) 53) as [|G]; [assumption|].
  assert (2 ^ 53 <= 2 ^ (Z.pos (digits2_pos p) - 1))
    by (apply Z.pow_le_mono_r; lia).
  lia.
Qed.

(** A mantissa of 53 digits with an exponent in range is kept as it is. *)
Lemma binary_round_aux_exact (s : bool) (m : positive) (e : Z) :
  Z.pos (digits2_pos m) = 53 -> -1074 <= e <= 971 ->
  binary_round_aux prec emax s (Z.pos m) e loc_Exact = S754_finite s m e.
Proof.
  intros Hd He.
  unfold binary_round_aux, shr_fexp, Zdigits2, fexp, emin, prec, emax.
  rewrite Hd.
  replace (Z.max (53 + e - 53) (3 - 1024 - 53) - e) with 0 by lia.
  cbn [shr shr_record_of_loc shr_m loc_of_shr_record round_nearest_even].
  rewrite Hd.
  replace (Z.max (53 + e - 53) (3 - 1024 - 53) - e) with 0 by lia.
  cbn [shr shr_record_of_loc shr_m].
  destruct (Z.leb_spec e (1024 - 53)); [reflexivity | lia].
Qed.

Lemma binary_round_small (s : bool) (p : positive) :
  Z.pos p < 2 ^ 53 ->
  exists m e, binary_round prec emax s p 0 = S754_finite s m e.
Proof.
  intros H. pose proof (digits2_pos_small p H) as Hd.
  unfold binary_round, shl_align, fexp, emin, prec, emax.
  rewrite Z.add_0_r.
  replace (Z.max (Z.pos (digits2_pos p) - 53) (3 - 1024 - 53) - 0)
    with (Z.pos (digits2_pos p) - 53) by lia.
  destruct (Z.pos (digits2_pos p) - 53) as [|q|q] eqn:E; try lia.
  - exists p, 0. apply binary_round_aux_exact; lia.
  - replace (Z.max (Z.pos (digits2_pos p) - 53) (3 - 1024 - 53))
      with (Z.neg q) by lia.
    eexists _, _. apply binary_round_aux_exact; [|lia].
    rewrite digits2_pos_iter_xO. lia.
Qed.

Lemma of_Z_small (z : Z) :
  - 2 ^ 53 < z < 2 ^ 53 ->
  match z with
  | Z0 => of_Z z = S754_zero false
  | Z.pos _ => exists m e, of_Z z = S754_finite false m e
  | Z.neg _ => exists m e, of_Z z = S754_finite true m e
  end.
Proof.
  intros H. destruct z as [|p|p]; [reflexivity| |];
    unfold of_Z, binary_normalize; apply binary_round_small; lia.
Qed.

End FloatFacts.

(** * Properties of the estimate *)

Section EstimateFacts.
Import FloatFacts.
Local Open Scope Z_scope.

Lemma of_nat_zero : Float.of_nat 0 = S754_zero false.
Proof. reflexivity. Qed.

Lemma of_nat_positive (k : nat) :
  (0 < k)%nat -> Z.of_nat k < 2 ^ 53 ->
  exists m e, Float.of_nat k = S754_finite false m e.
Proof.
  intros H0 H. unfold Float.of_nat.
  pose proof (of_Z_small (Z.of_nat k)) as L.
  destruct (Z.of_nat k) as [|p|p] eqn:E; try lia.
  apply L. lia.
Qed.

(** C7. Nothing guards the estimate
    [(total - processed) / (processed / elapsed)] against a division by
    zero, and the page shows what binary64 division gives.  With
    [processed = 0] the number shown is [Infinity] when there are lines
    and time has passed, and [NaN] when [elapsed = 0] or [total = 0];
    with [elapsed = 0] and [processed > 0] the rate is infinite and the
    number shown is zero. *)
Theorem remaining_is_not_guarded (total processed : nat) (elapsed : float) :
  Z.of_nat total < 2 ^ 53 ->
  Z.of_nat processed < 2 ^ 53 ->
  (processed = 0%nat -> (0 < total)%nat ->
   (exists m e, elapsed = S754_finite false m e) ->
   Float.round (remaining total processed elapsed) = S754_infinity false)
  /\ (processed = 0%nat -> elapsed = S754_zero false ->
      Float.round (remaining total processed elapsed) = S754_nan)
  /\ (processed = 0%nat -> total = 0%nat ->
      Float.round (remaining total processed elapsed) = S754_nan)
  /\ ((0 < processed)%nat -> elapsed = S754_zero false ->
      exists s, Float.round (remaining total processed elapsed) = S754_zero s).
Proof.
  intros Ht Hp. unfold remaining. repeat split.
  - intros -> H0 (m & e & ->).
    rewrite of_nat_zero, Z.sub_0_r.
    destruct (of_nat_positive total H0 Ht) as (mt & et & E).
    unfold Float.of_nat in E. rewrite E. reflexivity.
  - intros -> ->. rewrite of_nat_zero, Z.sub_0_r.
    change (Float.div (S754_zero false) (S754_zero false)) with S754_nan.
    now destruct (Float.of_Z (Z.of_nat total)).
  - intros -> ->. rewrite of_nat_zero. cbn [Z.of_nat Z.sub Z.opp Z.add].
    change (Float.of_Z 0) with (S754_zero false).
    now destruct elapsed as [[]|[]| |[] ? ?].
  - intros H0 ->.
    destruct (of_nat_positive processed H0 Hp) as (mp & ep & ->).
    change (Float.div (S754_finite false mp ep) (S754_zero false))
      with (S754_infinity false).
    pose proof (of_Z_small (Z.of_nat total - Z.of_nat processed)) as L.
    destruct (Z.of_nat total - Z.of_nat processed) as [|p|p] eqn:E.
    + rewrite L by lia. now exists false.
    + destruct L as (m & e & ->); [lia|]. now exists false.
    + destruct L as (m & e & ->); [lia|]. now exists true.
Qed.
End EstimateFacts.

(** * Properties of the summary report *)

Section ReportFacts.

Lemma append_assoc (a b c : string) :
  ((a ++ b) ++ c = a ++ (b ++ c))%string.
Proof. induction a as [|x a IH]; cbn; [reflexivity | now rewrite IH]. Qed.

Lemma append_nil_r (a : string) : (a ++ "" = a)%string.
Proof. induction a as [|x a IH]; cbn; [reflexivity | now rewrite IH]. Qed.

Lemma prefix_append (a b : string) : prefix a (a ++ b) = true.
Proof.
  induction a as [|x a IH]; cbn; [now destruct b|].
  destruct (ascii_dec x x); [exact IH | congruence].
Qed.

Lemma padEnd_length (k : nat) (s : string) :
  length (padEnd k s) = Nat.max k (length s).
Proof. unfold padEnd. rewrite length_append, length_repeat_char. lia. Qed.

Lemma padStart_length (k : nat) (s : string) :
  length (padStart k s) = Nat.max k (length s).
Proof. unfold padStart. rewrite length_append, length_repeat_char. lia. Qed.

(** *** The sort *)

Lemma insert_permutation {A : Type} (cmp : A -> A -> Z) (x : A) (l : list A) :
  Permutation (JsArray.insert cmp x l) (x :: l).
Proof.
  induction l as [|y r IH]; cbn; [reflexivity|].
  destruct (0 <? cmp x y)%Z; [|reflexivity].
  rewrite IH. apply perm_swap.
Qed.

Lemma sort_permutation {A : Type} (cmp : A -> A -> Z) (l : list A) :
  Permutation (JsArray.sort cmp l) l.
Proof.
  unfold JsArray.sort. induction l as [|x l IH]; cbn; [reflexivity|].
  rewrite insert_permutation. now constructor.
Qed.

Lemma by_count_positive (x y : string * list result) :
  (0 <? by_count x y)%Z = true <-> count_of x < count_of y.
Proof. unfold by_count. rewrite Z.ltb_lt. lia. Qed.

Lemma insert_descending (x : string * list result) l :
  StronglySorted descending l ->
  StronglySorted descending (JsArray.insert by_count x l).
Proof.
  induction 1 as [|y r Hs IH Hy]; cbn.
  - repeat constructor.
  - destruct (0 <? by_count x y)%Z eqn:E.
    + apply by_count_positive in E. constructor; [exact IH|].
      rewrite (insert_permutation by_count x r).
      constructor; [unfold descending; lia | exact Hy].
    + assert (count_of y <= count_of x).
      { destruct (Nat.le_gt_cases (count_of y) (count_of x)); [assumption|].
        apply by_count_positive in H. congruence. }
      constructor; [now constructor|].
      constructor; [exact H|].
      eapply Forall_impl; [|exact Hy].
      unfold descending. intros; lia.
Qed.

Lemma sort_descending l :
  StronglySorted descending (JsArray.sort by_count l).
Proof.
  unfold JsArray.sort. induction l as [|x l IH]; cbn;
    [constructor | now apply insert_descending].
Qed.

(** The sort is stable: the states with a given number of records stay
    in the order they had. *)
Lemma insert_stable (k : nat) (x : string * list result) l :
  filter (fun e => count_of e =? k) (JsArray.insert by_count x l)
  = filter (fun e => count_of e =? k) (x :: l).
Proof.
  induction l as [|y r IH]; [reflexivity|].
  cbn [JsArray.insert]. destruct (0 <? by_count x y)%Z eqn:E; [|reflexivity].
  apply by_count_positive in E.
  cbn [filter] in *. rewrite IH.
  destruct (Nat.eqb_spec (count_of x) k), (Nat.eqb_spec (count_of y) k);
    try reflexivity; lia.
Qed.

Lemma sort_stable (k : nat) l :
  filter (fun e => count_of e =? k) (JsArray.sort by_count l)
  = filter (fun e => count_of e =? k) l.
Proof.
  unfold JsArray.sort. induction l as [|x l IH]; [reflexivity|].
  cbn [fold_right]. rewrite insert_stable. cbn [filter]. now rewrite IH.
Qed.

(** Without array-index keys, the entries are the properties in the order
    of their creation. *)
Lemma entries_plain {A : Type} (o : JsObject.t A) :
  forallb (fun e => negb (JsObject.is_index e)) o = true ->
  JsObject.entries o = o.
Proof.
  intros H. unfold JsObject.entries.
  assert (F : filter JsObject.is_index o = []
              /\ filter (fun e => negb (JsObject.is_index e)) o = o).
  { induction o as [|e o IH]; [split; reflexivity|].
    cbn [forallb] in H. apply andb_true_iff in H as [He Ho].
    destruct (IH Ho) as [I1 I2]. cbn [filter]. rewrite He.
    apply negb_true_iff in He. rewrite He, I1, I2. split; reflexivity. }
  destruct F as [-> ->]. reflexivity.
Qed.

Lemma fold_left_append (f : string * list result -> string) l (init : string) :
  fold_left (fun report e => (report ++ f e)%string) l init
  = (init ++ String.concat "" (map f l))%string.
Proof.
  revert init. induction l as [|x l IH]; intros init; cbn [fold_left map].
  - cbn. now rewrite append_nil_r.
  - rewrite IH, append_assoc. f_equal.
    destruct l; cbn [map String.concat]; [now rewrite append_nil_r|].
    reflexivity.
Qed.

Lemma decimal_digit (k : N) :
  (k < 10)%N -> exists d, decimal k = String d "" /\ is_digit d = true.
Proof.
  intros H.
  assert (C : (k = 0 \/ k = 1 \/ k = 2 \/ k = 3 \/ k = 4 \/ k = 5 \/ k = 6
               \/ k = 7 \/ k = 8 \/ k = 9)%N) by lia.
  repeat (destruct C as [-> | C]; [eexists; split; reflexivity|]).
  subst k. eexists; split; reflexivity.
Qed.

(** [toFixed(1)] of a finite number ends with a point and one digit. *)
Lemma toFixed1_one_decimal (x : float) :
  is_finite x = true ->
  exists a d, toFixed1 x = (a ++ "." ++ String d "")%string
              /\ is_digit d = true.
Proof.
  destruct x as [s|s| |s m e]; try discriminate; intros _.
  - exists "0", "0"%char. split; reflexivity.
  - unfold toFixed1.
    destruct (decimal_digit (tenths (S754_finite s m e) mod 10)) as (d & -> & Hd);
      [apply N.mod_lt; discriminate|].
    exists ((if s then "-" else "") ++ decimal (tenths (S754_finite s m e) / 10))%string, d.
    split; [|exact Hd]. now rewrite append_assoc.
Qed.

End ReportFacts.

(** * The definitions at work *)

Example clean_example_strip :
  cleanPhoneNumber "+1 612-554-4556" true = "6125544556".
Proof. reflexivity. Qed.

Example clean_example_keep :
  cleanPhoneNumber "+1 612-554-4556" false = "6125544556".
Proof. reflexivity. Qed.

Example valid_example :
  isValidUSNumber (D := sample_directory) "6125544556" = true.
Proof. reflexivity. Qed.

Example sequential_example :
  isValidUSNumber (D := sample_directory) "1234567890" = false.
Proof. reflexivity. Qed.

(** Three times "234" and one more digit: the pattern for repeated groups
    lets it through. *)
Example repeated_example :
  isValidUSNumber (D := sample_directory) "2342342342" = true
  /\ re_repeated "234234234" = true.
Proof. split; reflexivity. Qed.

Example split_example :
  split_lines ("a" ++ newline ++ newline ++ "b") = ["a"; ""; "b"].
Proof. reflexivity. Qed.

Example trim_example : trim "  6 1 2  " = "6 1 2".
Proof. reflexivity. Qed.

Example toFixed1_examples :
  toFixed1 (Float.mul (Float.div (Float.of_nat 1) (Float.of_nat 3)) (Float.of_Z 100))
  = "33.3"
  /\ toFixed1 (Float.mul (Float.div (Float.of_nat 1) (Float.of_nat 8)) (Float.of_Z 100))
     = "12.5"
  /\ toFixed1 (Float.mul (Float.div (Float.of_nat 2) (Float.of_nat 2)) (Float.of_Z 100))
     = "100.0".
Proof. repeat split; vm_compute; reflexivity. Qed.

Example round_examples :
  Float.round (Float.div (Float.of_Z 5) (Float.of_Z 2)) = Float.of_Z 3
  /\ Float.round (Float.div (Float.of_Z (-5)) (Float.of_Z 2)) = Float.of_Z (-2)
  /\ Float.round (Float.div (Float.of_Z (-1)) (Float.of_Z 4)) = S754_zero true.
Proof. repeat split; vm_compute; reflexivity. Qed.

(** A run of two batches that is left to finish. *)
Example completed_run_example :
  let st :=
    sample_run [FileLoaded two_numbers;
                StartClicked (sample_options 1) (ms 1000) (ms 1016);
                TimerFired (ms 1032); TimerFired (ms 1048)] in
  processingActive st = false
  /\ Results.stats (processedResults st)
     = Stats.mk 2 2 0 ["New York"; "Minnesota"]
  /\ map is_results (log st) = [false; false; true].
Proof. vm_compute. repeat split. Qed.

(** A run of two batches that is cancelled after the first: the alert of
    the cancellation is followed by the results. *)
Example cancelled_run_example :
  let st :=
    sample_run [FileLoaded two_numbers;
                StartClicked (sample_options 1) (ms 1000) (ms 1016);
                CancelClicked; TimerFired (ms 1032)] in
  skipn 1 (log st) = [CancelAlert; ResultsShown (processedResults st)]
  /\ Results.stats (processedResults st) = Stats.mk 2 1 0 ["New York"].
Proof. vm_compute. repeat split. Qed.

Example summary_report_example :
  let st :=
    sample_run [FileLoaded two_numbers;
                StartClicked (sample_options 10) (ms 1000) (ms 1016);
                TimerFired (ms 1032)] in
  generateSummaryReport "1/1/2025, 12:00:00 PM" (processedResults st)
  = ("PHONE NUMBER PROCESSING REPORT" ++ newline
     ++ "===============================" ++ newline
     ++ "Generated: 1/1/2025, 12:00:00 PM" ++ newline ++ newline
     ++ "Total Numbers Processed: 2" ++ newline
     ++ "Valid US Numbers: 2" ++ newline
     ++ "Invalid Numbers: 0" ++ newline
     ++ "States Found: 2" ++ newline ++ newline
     ++ "DISTRIBUTION BY STATE:" ++ newline
     ++ "=====================" ++ newline
     ++ "New York            :        1 (50.0%)" ++ newline
     ++ "Minnesota           :        1 (50.0%)" ++ newline)%string.
Proof. vm_compute. reflexivity. Qed.

(** * Instances and counterexamples *)

Lemma isValidUSNumber_iff_witness :
  isValidUSNumber (D := sample_directory) "6125544556" = true
  /\ isValidUSNumber (D := sample_directory) "612554" = false.
Proof.
  split.
  - apply (proj1 (isValidUSNumber_iff (D := sample_directory) "6125544556")).
    repeat split; try discriminate.
    + intros (d & _ & H). discriminate H || (cbn in H; congruence).
    + intros (g & Hl & _ & H). apply (f_equal length) in H.
      rewrite !length_append, Hl in H. discriminate H.
  - apply (proj2 (isValidUSNumber_iff (D := sample_directory) "612554")).
    discriminate.
Defined.

Lemma repeated_pattern_never_matches_witness :
  re_repeated "2342342342" = false.
Proof. apply repeated_pattern_never_matches. reflexivity. Defined.

Lemma cleanPhoneNumber_fixed_witness :
  cleanPhoneNumber "6125544556" true = "6125544556"
  /\ cleanPhoneNumber "6125544556" false = "6125544556".
Proof.
  split.
  - apply (cleanPhoneNumber_fixed (D := sample_directory));
      [reflexivity | left; reflexivity].
  - apply (cleanPhoneNumber_fixed (D := sample_directory));
      [reflexivity | right; reflexivity].
Defined.

Lemma cancelled_run_is_finished_witness :
  let st :=
    sample_run [FileLoaded two_numbers;
                StartClicked (sample_options 1) (ms 1000) (ms 1016);
                CancelClicked] in
  log (resume (D := sample_directory) (ms 1032) st)
  = (log st ++ [ResultsShown (processedResults st)])%list.
Proof.
  cbn zeta.
  eapply (cancelled_run_is_finished (D := sample_directory));
    vm_compute; reflexivity.
Defined.

Lemma startProcessing_while_active_witness :
  let st :=
    sample_run [FileLoaded two_numbers;
                StartClicked (sample_options 1) (ms 1000) (ms 1016)] in
  step (D := sample_directory)
       (StartClicked (sample_options 5) (ms 1020) (ms 1021)) st
  = st.
Proof.
  cbn zeta. apply (startProcessing_while_active (D := sample_directory)).
  vm_compute. reflexivity.
Defined.



(** C5. A run of two lines in batches of one that is cancelled after its
    first batch ends with one record counted, no line passed over and a
    total of two. *)
Lemma cancelled_run_leaves_lines_unaccounted :
  let st :=
    sample_run [FileLoaded two_numbers;
                StartClicked (sample_options 1) (ms 1000) (ms 1016);
                CancelClicked; TimerFired (ms 1032)] in
  accounted st = 1
  /\ Stats.total (Results.stats (processedResults st)) = 2
  /\ accounted st <> Stats.total (Results.stats (processedResults st))
  /\ timers st = [].
Proof. vm_compute. repeat split. discriminate. Qed.

Lemma completed_run_accounts_for_every_line_witness :
  let st :=
    run (D := sample_directory)
        (StartClicked (sample_options 1) (ms 1000) (ms 1016)
         :: map TimerFired [ms 1032; ms 1048])
        (sample_run [FileLoaded blank_then_number]) in
  let stats := Results.stats (processedResults st) in
  Stats.valid stats + Stats.invalid stats + blankSkipped st
  = Stats.total stats
  /\ Stats.total stats = 2
  /\ blankSkipped st = 1.
Proof.
  cbn zeta.
  destruct (completed_run_accounts_for_every_line (D := sample_directory)
              blank_then_number (sample_options 1) 1 (ms 1000) (ms 1016)
              [ms 1032; ms 1048] (sample_run [FileLoaded blank_then_number]))
    as (H1 & H2 & H3 & _);
    [reflexivity | lia | reflexivity | discriminate
    | reflexivity | reflexivity | vm_compute; discriminate |].
  repeat split; assumption.
Defined.

(** C6. New York and Minnesota have one record each and New York was met
    first: the report lists New York before Minnesota. *)
Lemma report_ties_not_by_name :
  let st :=
    sample_run [FileLoaded two_numbers;
                StartClicked (sample_options 10) (ms 1000) (ms 1016);
                TimerFired (ms 1032)] in
  map (fun e => (fst e, count_of e)) (report_states (processedResults st))
  = [("New York", 1); ("Minnesota", 1)]
  /\ String.leb "New York" "Minnesota" = false
  /\ ties_by_name (report_states (processedResults st)) = false.
Proof. vm_compute. repeat split. Qed.

(** C7. The first batch is a blank line: nothing is processed when the
    progress is first shown, and the number of seconds shown is
    [Infinity]. *)
Lemma estimate_shows_infinity :
  let st :=
    sample_run [FileLoaded blank_then_number;
                StartClicked (sample_options 1) (ms 1000) (ms 1016)] in
  map seconds_shown (log st) = [Some (S754_infinity false)]
  /\ processedCount st = 0
  /\ is_finite (S754_infinity false) = false.
Proof. vm_compute. repeat split. Qed.

Lemma remaining_is_not_guarded_witness :
  Float.round (remaining 2 0 (Float.div (ms 16) (ms 1000)))
  = S754_infinity false
  /\ Float.round (remaining 2 0 (S754_zero false)) = S754_nan
  /\ exists s, Float.round (remaining 2 1 (S754_zero false)) = S754_zero s.
Proof.
  split; [|split].
  - apply (proj1 (remaining_is_not_guarded 2 0 (Float.div (ms 16) (ms 1000))
                    ltac:(vm_compute; reflexivity)
                    ltac:(vm_compute; reflexivity)));
      [reflexivity | lia | vm_compute; eauto].
  - apply (proj1 (proj2 (remaining_is_not_guarded 2 0 (S754_zero false)
                    ltac:(vm_compute; reflexivity)
                    ltac:(vm_compute; reflexivity))));
      reflexivity.
  - apply (proj2 (proj2 (proj2 (remaining_is_not_guarded 2 1 (S754_zero false)
                    ltac:(vm_compute; reflexivity)
                    ltac:(vm_compute; reflexivity)))));
      [lia | reflexivity].
Defined.

(** * More on the normalizer *)

Module SubstringFacts.

Lemma length_substring (n m : nat) (s : string) :
  length (substring n m s) = Nat.min m (length s - n).
Proof.
  revert n m. induction s as [|c s IH]; intros n m.
  - destruct n, m; reflexivity.
  - destruct n as [|n]; [destruct m as [|m]|]; cbn [substring length].
    + reflexivity.
    + rewrite IH. cbn. now rewrite Nat.sub_0_r.
    + rewrite IH. reflexivity.
Qed.

Lemma substring_all (m : nat) (s : string) :
  length s <= m -> substring 0 m s = s.
Proof.
  revert m. induction s as [|c s IH]; intros m H.
  - now destruct m.
  - destruct m as [|m]; cbn [length] in H; [lia|].
    cbn [substring]. rewrite IH by lia. reflexivity.
Qed.

Lemma digit_only_substring (n m : nat) (s : string) :
  digit_only s = true -> digit_only (substring n m s) = true.
Proof.
  revert n m. induction s as [|c s IH]; intros n m H.
  - now destruct n, m.
  - cbn [digit_only] in H. apply andb_true_iff in H as [Hc Hs].
    destruct n as [|n]; [destruct m as [|m]|]; cbn [substring digit_only].
    + reflexivity.
    + rewrite Hc. now apply IH.
    + now apply IH.
Qed.

Lemma digit_only_remove_non_digits (s : string) :
  digit_only (remove_non_digits s) = true.
Proof.
  induction s as [|c s IH]; cbn [remove_non_digits]; [reflexivity|].
  destruct (is_digit c) eqn:Hc; [|exact IH].
  cbn [digit_only]. now rewrite Hc.
Qed.

Lemma substring1_from (i : nat) (s : string) :
  i <= length s -> substring1 i s = substring i (length s - i) s.
Proof.
  intros H. unfold substring1, substring2.
  rewrite Nat.min_id, (Nat.min_l i) by exact H.
  rewrite Nat.min_l, Nat.max_r by exact H. reflexivity.
Qed.

End SubstringFacts.
Import SubstringFacts.

Module CleanFacts.

Lemma cleaned_is_last_ten (s : string) (b : bool) :
  cleanPhoneNumber s b
  = substring (length (remove_non_digits s) - 10) 10 (remove_non_digits s).
Proof.
  unfold cleanPhoneNumber.
  set (d := remove_non_digits s).
  destruct (b && (length d =? 11) && startsWith "1" d) eqn:C.
  - apply andb_true_iff in C as [C _]. apply andb_true_iff in C as [_ C].
    apply Nat.eqb_eq in C.
    rewrite substring1_from by lia.
    rewrite length_substring, C. reflexivity.
  - destruct (Nat.ltb_spec 10 (length d)) as [L|L].
    + rewrite substring1_from by lia. f_equal. lia.
    + replace (length d - 10) with 0 by lia.
      symmetry. now apply substring_all.
Qed.

Lemma cleaned_whatever_flag (s : string) (b b' : bool) :
  cleanPhoneNumber s b = cleanPhoneNumber s b'.
Proof. now rewrite !cleaned_is_last_ten. Qed.

Lemma cleaned_digit_only (s : string) (b : bool) :
  digit_only (cleanPhoneNumber s b) = true.
Proof.
  rewrite cleaned_is_last_ten.
  apply digit_only_substring, digit_only_remove_non_digits.
Qed.

Lemma cleaned_length (s : string) (b : bool) :
  length (cleanPhoneNumber s b) <= 10.
Proof. rewrite cleaned_is_last_ten, length_substring. lia. Qed.

Lemma cleaned_again (s : string) (b b' : bool) :
  cleanPhoneNumber (cleanPhoneNumber s b) b' = cleanPhoneNumber s b.
Proof.
  rewrite (cleaned_is_last_ten (cleanPhoneNumber s b) b').
  rewrite (remove_non_digits_digit_only _ (cleaned_digit_only s b)).
  pose proof (cleaned_length s b).
  replace (length (cleanPhoneNumber s b) - 10) with 0 by lia.
  now apply substring_all.
Qed.

End CleanFacts.
Import CleanFacts.

(** X1. [cleanPhoneNumber] returns the last ten digits of its argument,
    all of its digits when there are ten or less; the flag
    [removePlusOne] changes nothing, since the digit that it removes from
    eleven is the one that the cut to ten removes. *)
Theorem cleanPhoneNumber_last_ten (s : string) (b : bool) :
  let digits := remove_non_digits s in
  cleanPhoneNumber s b = substring (length digits - 10) 10 digits
  /\ cleanPhoneNumber s true = cleanPhoneNumber s false.
Proof.
  cbn zeta. split.
  - apply cleaned_is_last_ten.
  - apply cleaned_whatever_flag.
Qed.

(** X2. What [cleanPhoneNumber] returns is made of digits, at most ten of
    them, and cleaning it again gives it back: the validator says the same
    of both. *)
Theorem cleanPhoneNumber_idempotent {D : AreaCodeDirectory}
    (s : string) (b b' : bool) :
  let cleaned := cleanPhoneNumber s b in
  digit_only cleaned = true
  /\ length cleaned <= 10
  /\ cleanPhoneNumber cleaned b' = cleaned
  /\ isValidUSNumber (cleanPhoneNumber cleaned b') = isValidUSNumber cleaned.
Proof.
  cbn zeta. split; [apply cleaned_digit_only|].
  split; [apply cleaned_length|].
  split; [apply cleaned_again|].
  f_equal. apply cleaned_again.
Qed.

(** * What holds in every state of the page *)

Module ObjectFacts.

Lemma get_set_same {A : Type} (k : string) (v : A) (o : JsObject.t A) :
  JsObject.get k (JsObject.set k v o) = Some v.
Proof.
  induction o as [|[k' v'] o IH]; cbn [JsObject.set JsObject.get].
  - now rewrite String.eqb_refl.
  - destruct (String.eqb k' k) eqn:E; cbn [JsObject.get]; now rewrite E.
Qed.

Lemma set_set {A : Type} (k : string) (v v' : A) (o : JsObject.t A) :
  JsObject.set k v (JsObject.set k v' o) = JsObject.set k v o.
Proof.
  induction o as [|[k0 v0] o IH]; cbn [JsObject.set].
  - now rewrite String.eqb_refl.
  - destruct (String.eqb k0 k) eqn:E; cbn [JsObject.set]; rewrite E;
      [reflexivity | now rewrite IH].
Qed.

Lemma get_In {A : Type} (k : string) (v : A) (o : JsObject.t A) :
  JsObject.get k o = Some v -> In (k, v) o.
Proof.
  induction o as [|[k' v'] o IH]; cbn [JsObject.get]; [discriminate|].
  destruct (String.eqb_spec k' k) as [->|N].
  - intros [= ->]. now left.
  - intros H. right. now apply IH.
Qed.

Lemma get_None {A : Type} (k : string) (o : JsObject.t A) :
  JsObject.get k o = None <-> ~ In k (map fst o).
Proof.
  induction o as [|[k' v'] o IH]; cbn [JsObject.get map fst In]; [tauto|].
  destruct (String.eqb_spec k' k) as [->|N].
  - split; [discriminate | tauto].
  - rewrite IH. tauto.
Qed.

Lemma In_get {A : Type} (k : string) (v : A) (o : JsObject.t A) :
  NoDup (map fst o) -> In (k, v) o -> JsObject.get k o = Some v.
Proof.
  induction o as [|[k' v'] o IH]; cbn [map fst]; intros N H; [easy|].
  inversion N as [|? ? N1 N2]; subst. cbn [JsObject.get].
  destruct H as [[= -> ->]|H].
  - now rewrite String.eqb_refl.
  - destruct (String.eqb_spec k' k) as [->|_]; [|now apply IH].
    exfalso. apply N1. now apply (in_map fst) in H.
Qed.

(** The keys after [o[k] = v]: as before when [k] was a key, with [k] at
    the end when it was not. *)
Lemma keys_set {A : Type} (k : string) (v : A) (o : JsObject.t A) :
  map fst (JsObject.set k v o)
  = match JsObject.get k o with
    | Some _ => map fst o
    | None => (map fst o ++ [k])%list
    end.
Proof.
  induction o as [|[k' v'] o IH]; cbn [JsObject.set JsObject.get map fst app];
    [reflexivity|].
  destruct (String.eqb k' k); cbn [map fst]; [reflexivity|].
  rewrite IH. now destruct (JsObject.get k o).
Qed.

Lemma NoDup_keys_set {A : Type} (k : string) (v : A) (o : JsObject.t A) :
  NoDup (map fst o) -> NoDup (map fst (JsObject.set k v o)).
Proof.
  intros N. rewrite keys_set.
  destruct (JsObject.get k o) eqn:E; [exact N|].
  apply get_None in E.
  apply NoDup_app; [exact N | repeat constructor; easy |].
  intros x Hx [<-|[]]. now apply E.
Qed.

Lemma Forall_set {A : Type} (P : string * A -> Prop) (k : string) (v : A)
    (o : JsObject.t A) :
  Forall P o -> P (k, v) -> Forall P (JsObject.set k v o).
Proof.
  intros F Pk. induction F as [|[k' v'] o Pe F IH]; cbn [JsObject.set].
  - now repeat constructor.
  - destruct (String.eqb_spec k' k) as [->|_]; now constructor.
Qed.

End ObjectFacts.
Import ObjectFacts.

Section ReachableFacts.
Context {D : AreaCodeDirectory}.

(** [byState] after the record [result] of [state] has been filed. *)
Lemma processSingleNumber_valid (raw : string) (o : Options.t)
    (pr : Results.t) :
  isValidUSNumber (cleanPhoneNumber raw (Options.removePlusOne o)) = true ->
  let cleaned := cleanPhoneNumber raw (Options.removePlusOne o) in
  let state := getStateFromAreaCode (substring2 0 3 cleaned) in
  let result := ValidResult raw cleaned (substring2 0 3 cleaned) state in
  let pr' := processSingleNumber raw o pr in
  Results.valid pr' = (Results.valid pr ++ [result])%list
  /\ Results.invalid pr' = Results.invalid pr
  /\ Stats.states (Results.stats pr')
     = Stats.set_add state (Stats.states (Results.stats pr))
  /\ Results.byState pr'
     = if Options.groupByState o
       then JsObject.set state
              (match JsObject.get state (Results.byState pr) with
               | Some numbers => numbers
               | None => []
               end ++ [result])%list
              (Results.byState pr)
       else Results.byState pr.
Proof.
  intros V. cbn zeta. unfold processSingleNumber. rewrite V.
  destruct (Options.groupByState o);
    cbn [Results.valid Results.invalid Results.byState Results.stats
         Stats.states]; repeat split.
  destruct (JsObject.get _ (Results.byState pr)) eqn:G.
  - now rewrite G.
  - now rewrite get_set_same, set_set.
Qed.

Lemma processSingleNumber_invalid (raw : string) (o : Options.t)
    (pr : Results.t) :
  isValidUSNumber (cleanPhoneNumber raw (Options.removePlusOne o)) = false ->
  let cleaned := cleanPhoneNumber raw (Options.removePlusOne o) in
  let pr' := processSingleNumber raw o pr in
  Results.valid pr' = Results.valid pr
  /\ Results.invalid pr'
     = (Results.invalid pr ++ [InvalidResult raw cleaned])%list
  /\ Stats.states (Results.stats pr') = Stats.states (Results.stats pr)
  /\ Results.byState pr' = Results.byState pr.
Proof.
  intros V. cbn zeta. unfold processSingleNumber. rewrite V.
  repeat split.
Qed.

(** *** Induction over the states that the page can reach *)

Section Invariant.
Variable Q : Results.t -> nat -> Prop.
Hypothesis Q_empty : Q Results.empty 0.
Hypothesis Q_total : forall n pr c, Q pr c -> Q (Results.set_total n pr) c.
Hypothesis Q_record :
  forall raw o pr c, Q pr c -> Q (processSingleNumber raw o pr) (S c).

Local Abbreviation holds st := (Q (processedResults st) (processedCount st)).

Lemma processBatch_invariant (batch : list string) (o : Options.t) :
  forall st, holds st -> holds (processBatch batch o st).
Proof.
  induction batch as [|l rest IH]; intros st H; [exact H|].
  cbn [processBatch]. destruct (processingCancelled st); [exact H|].
  destruct (String.eqb (trim l) ""); apply IH; cbn [processedResults
    processedCount]; [exact H | now apply Q_record].
Qed.

Lemma loop_invariant (t : task) (now : float) (st : state) :
  holds st -> holds (loop t now st).
Proof.
  intros H. unfold loop.
  destruct (Num.lt (t_batchIndex t) (t_totalBatches t)); [|exact H].
  destruct (processingCancelled st); [exact H|].
  cbn [set_timers updateProgressUI show processedResults processedCount].
  now apply processBatch_invariant.
Qed.

Lemma step_invariant (e : event) (st : state) :
  holds st -> holds (step e st).
Proof.
  intros H. destruct e as [content|o t0 t1| |now]; cbn [step].
  - exact H.
  - unfold startProcessing.
    destruct (no_content (currentFileContent st) || processingActive st);
      [exact H|].
    unfold processInBatches. apply loop_invariant.
    cbn [processedResults processedCount resetProcessingState
         set_processedResults].
    apply Q_total, Q_empty.
  - exact H.
  - unfold resume. destruct (timers st) as [|t rest]; [exact H|].
    now apply loop_invariant.
Qed.

Lemma run_invariant (es : list event) :
  forall st, holds st -> holds (run es st).
Proof.
  induction es as [|e es IH]; intros st H; [exact H|].
  rewrite run_cons. apply IH. now apply step_invariant.
Qed.

Lemma reachable_invariant (es : list event) : holds (run es initial).
Proof. apply run_invariant. exact Q_empty. Qed.

End Invariant.

(** X3. Whatever has happened on the page, the counters agree with the
    lists: [stats.valid] and [stats.invalid] are the lengths of [valid] and
    [invalid], and [processedCount] is the number of records of both. *)
Theorem counters_agree_with_lists (es : list event) :
  let st := run es initial in
  let pr := processedResults st in
  Stats.valid (Results.stats pr) = List.length (Results.valid pr)
  /\ Stats.invalid (Results.stats pr) = List.length (Results.invalid pr)
  /\ processedCount st
     = List.length (Results.valid pr) + List.length (Results.invalid pr).
Proof.
  cbn zeta.
  apply (reachable_invariant
           (fun pr c =>
              Stats.valid (Results.stats pr) = List.length (Results.valid pr)
              /\ Stats.invalid (Results.stats pr)
                 = List.length (Results.invalid pr)
              /\ c = List.length (Results.valid pr)
                     + List.length (Results.invalid pr))).
  - repeat split.
  - intros n pr c H. exact H.
  - intros raw o pr c (H1 & H2 & H3). unfold processSingleNumber.
    destruct (isValidUSNumber _); [destruct (Options.groupByState o)|];
      cbn [Results.stats Results.valid Results.invalid Stats.valid
           Stats.invalid];
      rewrite length_app; cbn [List.length]; repeat split; lia.
Qed.

Lemma reachable_records (es : list event) :
  let pr := processedResults (run es initial) in
  Forall valid_record (Results.valid pr)
  /\ Forall invalid_record (Results.invalid pr).
Proof.
  cbn zeta.
  apply (reachable_invariant
           (fun pr _ =>
              Forall valid_record (Results.valid pr)
              /\ Forall invalid_record (Results.invalid pr))).
  - split; constructor.
  - intros n pr c H. exact H.
  - intros raw o pr c (H1 & H2).
    set (b := Options.removePlusOne o).
    assert (Hb : forall b', cleanPhoneNumber raw b = cleanPhoneNumber raw b')
      by (intros b'; apply cleaned_whatever_flag).
    destruct (isValidUSNumber (cleanPhoneNumber raw b)) eqn:V.
    + destruct (processSingleNumber_valid raw o pr V) as (E1 & E2 & _).
      cbn zeta in E1, E2. rewrite E1, E2. split; [|exact H2].
      apply Forall_app. split; [exact H1|]. constructor; [|constructor].
      pose proof (isValidUSNumber_length _ V) as L.
      destruct (exchange_first_digit _ L) as [_ EA].
      pose proof (cleaned_digit_only raw b) as Hd.
      cbn [valid_record]. fold b. rewrite EA. repeat split; auto.
    + destruct (processSingleNumber_invalid raw o pr V) as (E1 & E2 & _).
      cbn zeta in E1, E2. rewrite E1, E2. split; [exact H1|].
      apply Forall_app. split; [exact H2|]. constructor; [|constructor].
      cbn [invalid_record]. fold b. split; auto.
Qed.

(** X4. Whatever has happened on the page, every record of [valid] holds a
    cleaned number of ten digits that the validator accepts, its first
    three digits as area code and the state that the directory gives for
    them; every record of [invalid] holds a cleaned number that the
    validator turns down.  In both, [cleaned] is what [cleanPhoneNumber]
    makes of [original], with or without [removePlusOne]. *)
Theorem records_are_classified (es : list event) (r : result) :
  let pr := processedResults (run es initial) in
  (In r (Results.valid pr) ->
   exists o c,
     r = ValidResult o c (substring 0 3 c)
           (getStateFromAreaCode (substring 0 3 c))
     /\ (forall b, c = cleanPhoneNumber o b)
     /\ isValidUSNumber c = true
     /\ digit_only c = true
     /\ length c = 10)
  /\ (In r (Results.invalid pr) ->
      exists o c,
        r = InvalidResult o c
        /\ (forall b, c = cleanPhoneNumber o b)
        /\ isValidUSNumber c = false).
Proof.
  cbn zeta. destruct (reachable_records es) as [V I].
  rewrite Forall_forall in V, I. split; intros H.
  - specialize (V r H). destruct r as [o c a s|]; [|contradiction].
    destruct V as (V1 & V2 & V3 & V4 & -> & ->).
    exists o, c. repeat split; assumption.
  - specialize (I r H). destruct r as [|o c]; [contradiction|].
    destruct I as (I1 & I2). exists o, c. repeat split; assumption.
Qed.

Lemma set_add_In (s x : string) (l : list string) :
  In x (Stats.set_add s l) <-> x = s \/ In x l.
Proof.
  unfold Stats.set_add. destruct (existsb (String.eqb s) l) eqn:E.
  - apply existsb_exists in E as (y & Hy & Ey). apply String.eqb_eq in Ey.
    subst y. split; [tauto | intros [->|H]; assumption].
  - rewrite in_app_iff. cbn [In]. split; intros [H|H]; auto.
    destruct H as [H|[]]; auto.
Qed.

Lemma set_add_NoDup (s : string) (l : list string) :
  NoDup l -> NoDup (Stats.set_add s l).
Proof.
  intros N. unfold Stats.set_add.
  destruct (existsb (String.eqb s) l) eqn:E; [exact N|].
  apply NoDup_app; [exact N | repeat constructor; easy |].
  intros x Hx [<-|[]].
  assert (existsb (String.eqb s) l = true); [|congruence].
  apply existsb_exists. exists s. split; [exact Hx | apply String.eqb_refl].
Qed.

(** X5. Whatever has happened on the page, the set [stats.states] holds
    each state once, and it holds exactly the states of the records of
    [valid]: the number of states shown is the number of different states
    among the valid numbers. *)
Theorem states_are_those_of_valid (es : list event) :
  let pr := processedResults (run es initial) in
  NoDup (Stats.states (Results.stats pr))
  /\ forall s, In s (Stats.states (Results.stats pr))
               <-> exists r, In r (Results.valid pr) /\ state_of r = Some s.
Proof.
  cbn zeta.
  apply (reachable_invariant
           (fun pr _ =>
              NoDup (Stats.states (Results.stats pr))
              /\ forall s, In s (Stats.states (Results.stats pr))
                           <-> exists r, In r (Results.valid pr)
                                         /\ state_of r = Some s)).
  - split; [constructor|]. intros s. split; [intros [] | intros (r & [] & _)].
  - intros n pr c H. exact H.
  - intros raw o pr c (H1 & H2).
    destruct (isValidUSNumber
                (cleanPhoneNumber raw (Options.removePlusOne o))) eqn:V.
    + destruct (processSingleNumber_valid raw o pr V) as (E1 & _ & E3 & _).
      cbn zeta in E1, E3. rewrite E1, E3.
      split; [now apply set_add_NoDup|].
      intros s. rewrite set_add_In, H2. split.
      * intros [->|(r & Hr & Hs)].
        -- eexists. split; [apply in_or_app; right; now left | reflexivity].
        -- exists r. split; [apply in_or_app; now left | exact Hs].
      * intros (r & Hr & Hs). apply in_app_or in Hr as [Hr|[<-|[]]].
        -- right. now exists r.
        -- left. cbn in Hs. congruence.
    + destruct (processSingleNumber_invalid raw o pr V) as (E1 & _ & E3 & _).
      cbn zeta in E1, E3. rewrite E1, E3. now split.
Qed.

Lemma reachable_grouped (es : list event) :
  grouped (processedResults (run es initial)).
Proof.
  apply (reachable_invariant (fun pr _ => grouped pr)).
  - split; constructor.
  - intros n pr c H. exact H.
  - intros raw o pr c (H1 & H2). unfold grouped.
    destruct (isValidUSNumber
                (cleanPhoneNumber raw (Options.removePlusOne o))) eqn:V.
    + destruct (processSingleNumber_valid raw o pr V) as (E1 & _ & _ & E4).
      cbn zeta in E1, E4. rewrite E1, E4.
      assert (M : Forall
                    (fun e =>
                       snd e <> []
                       /\ Forall
                            (fun r =>
                               In r (Results.valid pr ++ [ValidResult raw
                                  (cleanPhoneNumber raw (Options.removePlusOne o))
                                  (substring2 0 3
                                     (cleanPhoneNumber raw (Options.removePlusOne o)))
                                  (getStateFromAreaCode
                                     (substring2 0 3
                                        (cleanPhoneNumber raw
                                           (Options.removePlusOne o))))])
                               /\ state_of r = Some (fst e)) (snd e))
                    (Results.byState pr)).
      { eapply Forall_impl; [|exact H2]. intros e (A & B). split; [exact A|].
        eapply Forall_impl; [|exact B]. intros r (C & E).
        split; [apply in_or_app; now left | exact E]. }
      destruct (Options.groupByState o); [|now split].
      split; [now apply NoDup_keys_set|].
      apply Forall_set; [exact M|]. cbn [fst snd]. split.
      * now destruct (JsObject.get _ (Results.byState pr)) as [[|]|].
      * apply Forall_app. split.
        -- destruct (JsObject.get _ (Results.byState pr)) as [l|] eqn:G;
             [|constructor].
           apply get_In in G.
           rewrite Forall_forall in M. now destruct (M _ G).
        -- constructor; [|constructor]. split; [|reflexivity].
           apply in_or_app. right. now left.
    + destruct (processSingleNumber_invalid raw o pr V) as (E1 & _ & _ & E4).
      cbn zeta in E1, E4. rewrite E1, E4. now split.
Qed.

(** X6. Whatever has happened on the page, the keys of [byState] are all
    different, no key has an empty array, and every record under a key is
    a record of [valid] with the key as its state. *)
Theorem byState_is_grouped (es : list event) :
  let pr := processedResults (run es initial) in
  NoDup (map fst (Results.byState pr))
  /\ forall state numbers,
       JsObject.get state (Results.byState pr) = Some numbers ->
       numbers <> []
       /\ forall r, In r numbers ->
                    In r (Results.valid pr) /\ state_of r = Some state.
Proof.
  cbn zeta. destruct (reachable_grouped es) as [N F].
  split; [exact N|]. intros state numbers G.
  apply get_In in G. rewrite Forall_forall in F.
  destruct (F _ G) as [A B]. split; [exact A|].
  now rewrite Forall_forall in B.
Qed.

End ReachableFacts.

(** * A completed run, record by record *)

Section CompletedRun.
Context {D : AreaCodeDirectory}.

Lemma processLines_app (l1 l2 : list string) (o : Options.t) (pr : Results.t) :
  processLines (l1 ++ l2) o pr = processLines l2 o (processLines l1 o pr).
Proof. unfold processLines. apply fold_left_app. Qed.

Lemma processLines_filter (lines : list string) (o : Options.t) :
  forall pr,
    processLines lines o pr
    = fold_left (fun pr line => processSingleNumber line o pr)
        (filter (fun line => negb (String.eqb line "")) (map trim lines))
        pr.
Proof.
  unfold processLines.
  induction lines as [|l ls IH]; intros pr; [reflexivity|].
  cbn [fold_left map filter]. cbv beta.
  change (is_blank l) with (String.eqb (trim l) "").
  destruct (String.eqb (trim l) ""); cbn [negb fold_left]; apply IH.
Qed.

(** A batch that is not cut short by a cancellation treats its lines one
    after the other. *)
Lemma processBatch_results (batch : list string) (o : Options.t) :
  forall st,
    processingCancelled st = false ->
    processedResults (processBatch batch o st)
    = processLines batch o (processedResults st).
Proof.
  induction batch as [|l rest IH]; intros st C; [reflexivity|].
  cbn [processBatch]. rewrite C.
  change (String.eqb (trim l) "") with (is_blank l).
  unfold processLines. cbn [fold_left].
  destruct (is_blank l); rewrite IH by reflexivity; reflexivity.
Qed.

Section Batches.
Variable lines : list string.
Variable options : Options.t.
Variable b : Z.
Hypothesis Hb : Options.batchSize options = Int b.
Hypothesis Hpos : (1 <= b)%Z.

Local Abbreviation n := (List.length lines).
Local Abbreviation totalBatches := (- ((- Z.of_nat n) / b))%Z.
Local Abbreviation task_at k := (mkTask lines options (Int totalBatches) k).

(** The records and the effects of the turn of the loop for batch [k]. *)
Lemma loop_batch_results (k : Z) (now : float) (st : state) :
  (0 <= k < totalBatches)%Z ->
  processingCancelled st = false ->
  let st' := loop (task_at k) now st in
  processedResults st'
  = processLines
      (firstn (upto b n (k + 1) - upto b n k) (skipn (upto b n k) lines))
      options (processedResults st)
  /\ exists e, log st' = (log st ++ [e])%list /\ is_progress e = true.
Proof.
  intros Hk Hc. cbn zeta. unfold loop.
  cbn [t_batchIndex t_totalBatches t_lines t_options Num.lt].
  destruct (Z.ltb_spec k totalBatches); [|lia].
  rewrite Hc, (batch_slice lines options b Hb Hpos k) by lia.
  set (batch := firstn _ (skipn _ lines)).
  destruct (processBatch_frame batch options st) as (_ & _ & _ & _ & F5 & _).
  cbn zeta in F5.
  unfold updateProgressUI, show, set_timers. cbn [processedResults log].
  rewrite F5. split; [now apply processBatch_results|].
  eexists. split; reflexivity.
Qed.

Lemma through_next (pr0 : Results.t) (log0 : list effect) (k : Z)
    (now : float) (st : state) :
  (0 <= k)%Z -> (k + 1 < totalBatches)%Z ->
  processingCancelled st = false ->
  through lines options b pr0 log0 k st ->
  through lines options b pr0 log0 (k + 1) (loop (task_at (k + 1)) now (set_timers [] st)).
Proof.
  intros H0 Hk Hc (R & shown & L1 & L2 & L3).
  destruct (loop_batch_results (k + 1) now (set_timers [] st))
    as (R' & e & L' & He); [lia | exact Hc |].
  split.
  - rewrite R'. cbn [set_timers processedResults]. rewrite R.
    rewrite <- processLines_app.
    now rewrite <- (firstn_next_batch lines b Hpos (k + 1)) by lia.
  - exists (shown ++ [e])%list. rewrite L'. cbn [set_timers log].
    rewrite L1, app_assoc, length_app, forallb_app, L3.
    cbn [List.length forallb]. rewrite He. repeat split. lia.
Qed.

Lemma run_through (nows : list float) (pr0 : Results.t) (log0 : list effect) :
  forall (k : Z) (st : state),
    (0 <= k < totalBatches)%Z ->
    timers st = [task_at k] ->
    processingActive st = true ->
    processingCancelled st = false ->
    counted lines (upto b n (k + 1)) st ->
    through lines options b pr0 log0 k st ->
    (totalBatches - k <= Z.of_nat (List.length nows))%Z ->
    let st' := run (map TimerFired nows) st in
    processedResults st' = processLines lines options pr0
    /\ exists shown,
         log st' = (log0 ++ shown ++ [ResultsShown (processedResults st')])%list
         /\ Z.of_nat (List.length shown) = totalBatches
         /\ forallb is_progress shown = true.
Proof.
  induction nows as [|now nows IH]; intros k st Hk Ht Ha Hc Hn Hth Hlen;
    cbn zeta.
  - cbn [List.length] in Hlen. lia.
  - cbn [map]. rewrite run_cons. cbn [step]. unfold resume.
    rewrite Ht. cbn [t_lines t_options t_totalBatches t_batchIndex].
    destruct (Z.lt_ge_cases (k + 1) totalBatches) as [Hlt|Hge].
    + destruct (loop_batch lines options b Hb Hpos (k + 1) now
                  (set_timers [] st))
        as (L1 & L2 & L3 & L4); try assumption; try reflexivity; [lia|].
      apply (IH (k + 1)%Z); try assumption; [lia | |].
      * apply through_next; [lia | assumption..].
      * cbn [List.length] in Hlen. lia.
    + rewrite loop_finished
        by (cbn [t_batchIndex t_totalBatches Num.lt]; lia).
      rewrite run_timers_idle by reflexivity.
      destruct Hth as (R & shown & L1 & L2 & L3).
      cbn [finishProcessing show set_timers processedResults log].
      rewrite R, (upto_last lines b Hpos (k + 1)), firstn_all by lia.
      split; [reflexivity|].
      exists shown. rewrite L1, <- app_assoc.
      repeat split; [lia | exact L3].
Qed.

End Batches.

(** The run of [startProcessing] on a loaded file, resumed to its end. *)
Lemma run_of_file (content : string) (options : Options.t) (b : Z)
    (t0 t1 : float) (nows : list float) (st0 : state) :
  Options.batchSize options = Int b ->
  (1 <= b)%Z ->
  currentFileContent st0 = Some content ->
  content <> "" ->
  processingActive st0 = false ->
  timers st0 = [] ->
  (Z.of_nat (List.length (split_lines content))
   <= b * Z.of_nat (List.length nows))%Z ->
  let lines := split_lines content in
  let st := run (StartClicked options t0 t1 :: map TimerFired nows) st0 in
  processedResults st
  = processLines lines options
      (Results.set_total (List.length lines) Results.empty)
  /\ exists shown,
       log st
       = (log st0 ++ shown ++ [ResultsShown (processedResults st)])%list
       /\ Num.ceil_div (List.length lines) (Options.batchSize options)
          = Int (Z.of_nat (List.length shown))
       /\ forallb is_progress shown = true.
Proof.
  intros Hb Hpos Hc Hne Ha Ht Hlen. cbn zeta.
  rewrite run_cons. cbn [step].
  destruct (startProcessing_enters options t0 t1 content st0 Hc Hne Ha)
    as (st & -> & S1 & S2 & S3 & S4 & S5 & S6 & S7).
  set (lines := split_lines content) in *.
  assert (Hn1 : (0 < Z.of_nat (List.length lines))%Z).
  { pose proof (split_lines_nonempty content). fold lines in H.
    destruct lines; [easy | cbn [List.length]; lia]. }
  assert (H0 : (0 < - (- Z.of_nat (List.length lines) / b))%Z)
    by (apply (totalBatches_bounds lines b Hpos); lia).
  assert (Hcnt : counted lines (upto b (List.length lines) 0) st).
  { rewrite (upto_0 lines b). unfold counted. rewrite S5, S6, S7.
    repeat split. }
  unfold processInBatches.
  rewrite (ceil_div_positive lines options b Hb Hpos).
  destruct (loop_batch lines options b Hb Hpos 0 t1 st)
    as (L1 & L2 & L3 & L4); try assumption; [lia | congruence |].
  destruct (loop_batch_results lines options b Hb Hpos 0 t1 st)
    as (R & e & Le & He); [lia | exact S2 |].
  rewrite (upto_0 lines b), Nat.sub_0_r in R. cbn [skipn] in R.
  destruct (run_through lines options b Hb Hpos nows
              (Results.set_total (List.length lines) Results.empty)
              (log st0) 0
              (loop (mkTask lines options
                       (Int (- (- Z.of_nat (List.length lines) / b))) 0)
                    t1 st))
    as (F1 & shown & F2 & F3 & F4); try assumption; [lia | | |].
  - split; [now rewrite R, S5|].
    exists [e]. rewrite Le, S4. cbn [List.length forallb]. rewrite He.
    repeat split.
  - assert (~ (Z.of_nat (List.length nows)
               < - (- Z.of_nat (List.length lines) / b)))%Z; [|lia].
    rewrite (totalBatches_bounds lines b Hpos). lia.
  - split; [exact F1|]. exists shown. rewrite F3. repeat split; assumption.
Qed.

(** X7. A run with a batch size of at least 1 that is started with a file
    loaded, no run active and no timer of an earlier run pending, that is
    not cancelled and has been resumed to its end, leaves the records that
    [processSingleNumber] makes of the lines that are not blank, trimmed,
    one after the other in the order of the file, starting from the empty
    results: neither the batch size, nor the clock, nor the results that
    were there when it started have any part in them. *)
Theorem completed_run_is_sequential (content : string) (options : Options.t)
    (b : Z) (t0 t1 : float) (nows : list float) (st0 : state) :
  Options.batchSize options = Int b ->
  (1 <= b)%Z ->
  currentFileContent st0 = Some content ->
  content <> "" ->
  processingActive st0 = false ->
  timers st0 = [] ->
  (Z.of_nat (List.length (split_lines content))
   <= b * Z.of_nat (List.length nows))%Z ->
  processedResults
    (run (StartClicked options t0 t1 :: map TimerFired nows) st0)
  = fold_left
      (fun pr line => processSingleNumber line options pr)
      (filter (fun line => negb (String.eqb line ""))
              (map trim (split_lines content)))
      (Results.set_total (List.length (split_lines content)) Results.empty).
Proof.
  intros Hb Hpos Hc Hne Ha Ht Hlen.
  destruct (run_of_file content options b t0 t1 nows st0
              Hb Hpos Hc Hne Ha Ht Hlen) as (R & _).
  cbn zeta in R. rewrite R. apply processLines_filter.
Qed.

(** X8. In a run with a batch size of at least 1 that is started with a
    file loaded, no run active and no timer of an earlier run pending,
    that is not cancelled and has been resumed to its end,
    [updateProgressUI] is called once for each batch,
    [Math.ceil(lines.length / batchSize)] times in all, and then
    [finishProcessing] once, with the results as they are left; the run
    calls neither of them at any other moment.  (The rate that
    [updateProcessingSpeed] writes is not among the effects.) *)
Theorem completed_run_shows_progress_per_batch (content : string)
    (options : Options.t) (b : Z) (t0 t1 : float) (nows : list float)
    (st0 : state) :
  Options.batchSize options = Int b ->
  (1 <= b)%Z ->
  currentFileContent st0 = Some content ->
  content <> "" ->
  processingActive st0 = false ->
  timers st0 = [] ->
  (Z.of_nat (List.length (split_lines content))
   <= b * Z.of_nat (List.length nows))%Z ->
  let st := run (StartClicked options t0 t1 :: map TimerFired nows) st0 in
  exists shown,
    log st = (log st0 ++ shown ++ [ResultsShown (processedResults st)])%list
    /\ Num.ceil_div (List.length (split_lines content))
                    (Options.batchSize options)
       = Int (Z.of_nat (List.length shown))
    /\ forallb is_progress shown = true.
Proof.
  intros Hb Hpos Hc Hne Ha Ht Hlen.
  now destruct (run_of_file content options b t0 t1 nows st0
                  Hb Hpos Hc Hne Ha Ht Hlen) as (_ & R).
Qed.

End CompletedRun.

(** * Grouping by state *)

Section GroupingFacts.
Context {D : AreaCodeDirectory}.

Lemma get_set_other {A : Type} (k k' : string) (v : A) (o : JsObject.t A) :
  k <> k' -> JsObject.get k' (JsObject.set k v o) = JsObject.get k' o.
Proof.
  intros N. induction o as [|[k0 v0] o IH]; cbn [JsObject.set JsObject.get].
  - destruct (String.eqb_spec k k'); [contradiction | reflexivity].
  - destruct (String.eqb_spec k0 k) as [->|N0]; cbn [JsObject.get].
    + destruct (String.eqb_spec k k'); [contradiction | reflexivity].
    + now rewrite IH.
Qed.

Lemma processSingleNumber_exactly_grouped (raw : string) (o : Options.t)
    (pr : Results.t) :
  Options.groupByState o = true ->
  exactly_grouped pr -> exactly_grouped (processSingleNumber raw o pr).
Proof.
  intros Hg G s. unfold exactly_grouped in G.
  destruct (isValidUSNumber
              (cleanPhoneNumber raw (Options.removePlusOne o))) eqn:V.
  - destruct (processSingleNumber_valid raw o pr V) as (E1 & _ & _ & E4).
    cbn zeta in E1, E4. rewrite E1, E4, Hg, filter_app. cbn [filter has_state].
    destruct (String.eqb_spec
                (getStateFromAreaCode
                   (substring2 0 3
                      (cleanPhoneNumber raw (Options.removePlusOne o)))) s)
      as [<-|N].
    + rewrite get_set_same, G.
      now destruct (filter _ (Results.valid pr)).
    + rewrite get_set_other by exact N. now rewrite app_nil_r.
  - destruct (processSingleNumber_invalid raw o pr V) as (E1 & _ & _ & E4).
    cbn zeta in E1, E4. rewrite E1, E4. apply G.
Qed.

Lemma processSingleNumber_ungrouped (raw : string) (o : Options.t)
    (pr : Results.t) :
  Options.groupByState o = false ->
  Results.byState (processSingleNumber raw o pr) = Results.byState pr.
Proof.
  intros Hg. unfold processSingleNumber. rewrite Hg.
  now destruct (isValidUSNumber _).
Qed.

Lemma fold_exactly_grouped (ls : list string) (o : Options.t) :
  Options.groupByState o = true ->
  forall pr,
    exactly_grouped pr ->
    exactly_grouped
      (fold_left (fun pr line => processSingleNumber line o pr) ls pr).
Proof.
  intros Hg. induction ls as [|l ls IH]; intros pr G; [exact G|].
  cbn [fold_left]. apply IH. now apply processSingleNumber_exactly_grouped.
Qed.

Lemma fold_ungrouped (ls : list string) (o : Options.t) :
  Options.groupByState o = false ->
  forall pr,
    Results.byState
      (fold_left (fun pr line => processSingleNumber line o pr) ls pr)
    = Results.byState pr.
Proof.
  intros Hg. induction ls as [|l ls IH]; intros pr; [reflexivity|].
  cbn [fold_left]. rewrite IH. now apply processSingleNumber_ungrouped.
Qed.

(** X9. After a run with a batch size of at least 1 that is started with
    a file loaded, no run active and no timer of an earlier run pending,
    that is not cancelled and has been resumed to its end: with
    [groupByState] ticked,
    [byState] has under every state exactly the valid records of that
    state, in the order of the file, and no key for any other state;
    without it, [byState] is empty however many numbers are valid. *)
Theorem completed_run_groups_by_state (content : string)
    (options : Options.t) (b : Z) (t0 t1 : float) (nows : list float)
    (st0 : state) :
  Options.batchSize options = Int b ->
  (1 <= b)%Z ->
  currentFileContent st0 = Some content ->
  content <> "" ->
  processingActive st0 = false ->
  timers st0 = [] ->
  (Z.of_nat (List.length (split_lines content))
   <= b * Z.of_nat (List.length nows))%Z ->
  let pr :=
    processedResults
      (run (StartClicked options t0 t1 :: map TimerFired nows) st0) in
  (Options.groupByState options = true ->
   forall s,
     JsObject.get s (Results.byState pr)
     = match filter (has_state s) (Results.valid pr) with
       | [] => None
       | numbers => Some numbers
       end)
  /\ (Options.groupByState options = false -> Results.byState pr = []).
Proof.
  intros Hb Hpos Hc Hne Ha Ht Hlen.
  destruct (run_of_file content options b t0 t1 nows st0
              Hb Hpos Hc Hne Ha Ht Hlen) as (R & _).
  cbn zeta in *. rewrite R, processLines_filter. split; intros Hg.
  - apply fold_exactly_grouped; [exact Hg|]. intros s. reflexivity.
  - now rewrite fold_ungrouped.
Qed.

End GroupingFacts.

(** * The order of the states in the report *)

Section ReportOrderFacts.
Context {D : AreaCodeDirectory}.

Lemma first_occurrences_In (s : string) (l : list string) :
  In s (first_occurrences l) <-> In s l.
Proof.
  induction l as [|a l IH]; cbn [first_occurrences In]; [tauto|].
  rewrite filter_In, IH. split.
  - intros [->|[H _]]; auto.
  - intros [->|H]; [now left|].
    destruct (String.eqb_spec s a) as [->|N]; [now left|].
    right. split; [exact H | reflexivity].
Qed.

Lemma first_occurrences_snoc (l : list string) (s : string) :
  first_occurrences (l ++ [s])
  = if existsb (String.eqb s) l then first_occurrences l
    else (first_occurrences l ++ [s])%list.
Proof.
  induction l as [|a l IH]; [reflexivity|].
  cbn [app first_occurrences existsb]. rewrite IH.
  destruct (String.eqb_spec s a) as [->|N]; cbn [orb].
  - destruct (existsb (String.eqb a) l); [reflexivity|].
    rewrite filter_app. cbn [filter]. rewrite String.eqb_refl.
    cbn [negb]. now rewrite app_nil_r.
  - destruct (existsb (String.eqb s) l); [reflexivity|].
    rewrite filter_app. cbn [filter].
    apply String.eqb_neq in N. now rewrite N.
Qed.

Lemma existsb_eqb_In (s : string) (l : list string) :
  existsb (String.eqb s) l = true <-> In s l.
Proof.
  rewrite existsb_exists. split.
  - intros (x & Hx & E). apply String.eqb_eq in E. now subst.
  - intros H. exists s. split; [exact H | apply String.eqb_refl].
Qed.

(** With [groupByState] set, a line whose state is new gives [byState] a
    new key behind the others, and any other line leaves the keys as they
    are. *)
Lemma processSingleNumber_keys (raw : string) (o : Options.t)
    (pr : Results.t) (seen : list string) :
  Options.groupByState o = true ->
  map fst (Results.byState pr) = first_occurrences seen ->
  map fst (Results.byState (processSingleNumber raw o pr))
  = first_occurrences
      (seen ++ match line_state o raw with
               | Some s => [s]
               | None => []
               end).
Proof.
  intros Hg K. unfold line_state.
  destruct (isValidUSNumber
              (cleanPhoneNumber raw (Options.removePlusOne o))) eqn:V.
  - destruct (processSingleNumber_valid raw o pr V) as (_ & _ & _ & E4).
    cbn zeta in E4. rewrite E4, Hg, keys_set, first_occurrences_snoc, K.
    set (state := getStateFromAreaCode _).
    destruct (JsObject.get state (Results.byState pr)) as [numbers|] eqn:G.
    + apply get_In, (in_map fst) in G. cbn [fst] in G.
      rewrite K, first_occurrences_In in G.
      apply existsb_eqb_In in G. now rewrite G.
    + apply get_None in G. rewrite K, first_occurrences_In in G.
      destruct (existsb (String.eqb state) seen) eqn:E; [|reflexivity].
      now apply existsb_eqb_In in E.
  - destruct (processSingleNumber_invalid raw o pr V) as (_ & _ & _ & E4).
    cbn zeta in E4. now rewrite E4, app_nil_r.
Qed.

Lemma fold_keys (ls : list string) (o : Options.t) :
  Options.groupByState o = true ->
  forall pr seen,
    map fst (Results.byState pr) = first_occurrences seen ->
    map fst
      (Results.byState
         (fold_left (fun pr line => processSingleNumber line o pr) ls pr))
    = first_occurrences
        (seen ++ flat_map
                   (fun line =>
                      match line_state o line with
                      | Some s => [s]
                      | None => []
                      end) ls).
Proof.
  intros Hg. induction ls as [|l ls IH]; intros pr seen K.
  - cbn [fold_left flat_map]. now rewrite app_nil_r.
  - cbn [fold_left flat_map]. rewrite app_assoc. apply IH.
    now apply processSingleNumber_keys.
Qed.

(** C6. In the summary report the lines of the states are in descending
    order of their number of records; states with the same number stay
    in the order in which [Object.entries] lists them (the sort compares
    the numbers only and is stable).  When no name is an array index,
    that is the order of the keys of [byState]; and after a run with
    [groupByState] set and a batch size of at least 1, started with a file
    loaded, no run active and no timer of an earlier run pending, and
    resumed to its end without a cancellation, the keys of [byState] are
    in the order in which the states are first met among the valid lines
    of the file.  Each line is the name padded at its end to 20
    characters, a colon, the number padded at its start to 8 characters
    and, in brackets, the percentage of [stats.valid] as [toFixed(1)]
    prints it: with one decimal when it is finite. *)
Theorem summary_report_lines (date : string) (pr : Results.t) :
  let entries := JsObject.entries (Results.byState pr) in
  let states := report_states pr in
  Permutation states entries
  /\ StronglySorted descending states
  /\ (forall k, filter (fun e => count_of e =? k) states
                = filter (fun e => count_of e =? k) entries)
  /\ (forallb (fun e => negb (JsObject.is_index e)) (Results.byState pr)
      = true ->
      entries = Results.byState pr)
  /\ (forall content options b t0 t1 nows st0,
        Options.batchSize options = Int b ->
        (1 <= b)%Z ->
        Options.groupByState options = true ->
        currentFileContent st0 = Some content ->
        content <> "" ->
        processingActive st0 = false ->
        timers st0 = [] ->
        (Z.of_nat (List.length (split_lines content))
         <= b * Z.of_nat (List.length nows))%Z ->
        pr = processedResults
               (run (StartClicked options t0 t1 :: map TimerFired nows) st0) ->
        map fst (Results.byState pr)
        = first_occurrences (states_in_file options content))
  /\ generateSummaryReport date pr
     = (report_header date pr
        ++ String.concat "" (map (state_line pr) states))%string
  /\ (forall e, exists name count percentage,
        state_line pr e
        = (name ++ ": " ++ count ++ " (" ++ percentage ++ "%)"
           ++ newline)%string
        /\ prefix (fst e) name = true
        /\ length name = Nat.max 20 (length (fst e))
        /\ count = padStart 8 (decimal (N.of_nat (count_of e)))
        /\ length count
           = Nat.max 8 (length (decimal (N.of_nat (count_of e))))
        /\ (let x :=
              Float.mul
                (Float.div (Float.of_nat (count_of e))
                   (Float.of_nat (Stats.valid (Results.stats pr))))
                (Float.of_Z 100) in
            percentage = toFixed1 x
            /\ (is_finite x = true ->
                exists a d,
                  percentage = (a ++ "." ++ String d "")%string
                  /\ is_digit d = true))).
Proof.
  cbn zeta. unfold report_states.
  split; [apply sort_permutation|].
  split; [apply sort_descending|].
  split; [intros k; apply sort_stable|].
  split; [apply entries_plain|].
  split.
  { intros content options b t0 t1 nows st0 Hb Hpos Hg Hc Hne Ha Ht Hlen ->.
    destruct (run_of_file content options b t0 t1 nows st0
                Hb Hpos Hc Hne Ha Ht Hlen) as (R & _).
    cbn zeta in R. rewrite R, processLines_filter.
    now apply (fold_keys _ options Hg _ []). }
  split; [apply fold_left_append|].
  intros e. eexists (padEnd 20 (fst e)), _, _.
  split; [reflexivity|].
  split; [apply prefix_append|].
  split; [apply padEnd_length|].
  split; [reflexivity|].
  split; [apply padStart_length|].
  split; [reflexivity | apply toFixed1_one_decimal].
Qed.

End ReportOrderFacts.

(** * The downloads *)

Module LineFacts.

Lemma digit_not_space (c : ascii) : is_digit c = true -> is_space c = false.
Proof.
  unfold is_digit, is_space. intros H.
  apply andb_true_iff in H as [H1 H2].
  apply Nat.leb_le in H1, H2.
  destruct (Nat.leb_spec (nat_of_ascii c) 13); [lia|].
  destruct (Nat.eqb_spec (nat_of_ascii c) 32); [lia|].
  destruct (Nat.eqb_spec (nat_of_ascii c) 160); [lia|].
  now rewrite andb_false_r.
Qed.

Lemma digit_not_newline (c : ascii) :
  is_digit c = true -> Ascii.eqb c "010" = false.
Proof.
  intros H. destruct (Ascii.eqb_spec c "010") as [->|]; [|reflexivity].
  discriminate H.
Qed.

Lemma trim_end_digit_only (s : string) :
  digit_only s = true -> trim_end s = s.
Proof.
  induction s as [|c s IH]; [reflexivity|].
  cbn [digit_only trim_end]. intros H.
  apply andb_true_iff in H as [Hc Hs]. rewrite (IH Hs).
  destruct s; [now rewrite (digit_not_space c Hc) | reflexivity].
Qed.

Lemma trim_digit_only (s : string) : digit_only s = true -> trim s = s.
Proof.
  intros H. unfold trim.
  replace (trim_start s) with s; [now apply trim_end_digit_only|].
  destruct s as [|c s]; [reflexivity|]. cbn [digit_only trim_start] in *.
  apply andb_true_iff in H as [Hc _]. now rewrite (digit_not_space c Hc).
Qed.

Lemma split_lines_digit_only (s : string) :
  digit_only s = true -> split_lines s = [s].
Proof.
  induction s as [|c s IH]; [reflexivity|].
  cbn [digit_only split_lines]. intros H.
  apply andb_true_iff in H as [Hc Hs].
  now rewrite (digit_not_newline c Hc), (IH Hs).
Qed.

Lemma split_lines_first (s rest : string) :
  digit_only s = true ->
  split_lines (s ++ newline ++ rest) = s :: split_lines rest.
Proof.
  induction s as [|c s IH]; [reflexivity|].
  cbn [digit_only]. intros H. apply andb_true_iff in H as [Hc Hs].
  cbn [append split_lines]. rewrite (digit_not_newline c Hc).
  cbn [append] in IH. now rewrite (IH Hs).
Qed.

(** Strings of digits that are joined by newlines are found again when
    the text is split at its newlines. *)
Lemma split_join (l : list string) :
  l <> [] ->
  Forall (fun s => digit_only s = true) l ->
  split_lines (join_lines l) = l.
Proof.
  induction l as [|x l IH]; [easy|]. intros _ F.
  inversion F as [|? ? Hx Hl]; subst.
  destruct l as [|y l].
  - now apply split_lines_digit_only.
  - change (join_lines (x :: y :: l))
      with (x ++ newline ++ join_lines (y :: l))%string.
    rewrite split_lines_first by exact Hx.
    now rewrite IH.
Qed.

End LineFacts.
Import LineFacts.

Section DownloadFacts.
Context {D : AreaCodeDirectory}.

(** Numbers that the validator accepts as they are, fed to
    [processSingleNumber] one after the other, are all filed as valid. *)
Lemma fold_accepted (cs : list string) (o : Options.t) :
  Forall (fun c => isValidUSNumber c = true
                   /\ forall b, cleanPhoneNumber c b = c) cs ->
  forall pr,
    let pr' := fold_left (fun pr line => processSingleNumber line o pr) cs pr in
    map cleaned_of (Results.valid pr')
    = (map cleaned_of (Results.valid pr) ++ cs)%list
    /\ Results.invalid pr' = Results.invalid pr.
Proof.
  induction 1 as [|c cs [V E] F IH]; intros pr; cbn zeta.
  - now rewrite app_nil_r.
  - cbn [fold_left].
    destruct (IH (processSingleNumber c o pr)) as [I1 I2].
    cbn zeta in I1, I2. rewrite I1, I2.
    assert (V' : isValidUSNumber
                   (cleanPhoneNumber c (Options.removePlusOne o)) = true)
      by now rewrite E.
    destruct (processSingleNumber_valid c o pr V') as (E1 & E2 & _).
    cbn zeta in E1, E2. rewrite E1, E2, map_app, <- app_assoc.
    cbn [map cleaned_of app]. now rewrite E.
Qed.

(** The cleaned numbers of the valid records of a state of the page. *)
Lemma reachable_cleaned (es : list event) (numbers : list result) :
  (forall r, In r numbers ->
             In r (Results.valid (processedResults (run es initial)))) ->
  Forall (fun c => digit_only c = true /\ length c = 10
                   /\ isValidUSNumber c = true
                   /\ forall b, cleanPhoneNumber c b = c)
         (map cleaned_of numbers).
Proof.
  intros Hin. destruct (reachable_records es) as [V _].
  rewrite Forall_forall in V. apply Forall_forall.
  intros c Hc. apply in_map_iff in Hc as (r & <- & Hr).
  specialize (V r (Hin r Hr)). destruct r as [o c a s|]; [|contradiction].
  destruct V as (V1 & V2 & V3 & V4 & _). cbn [cleaned_of].
  repeat split; try assumption.
  intros b. rewrite (V1 true) at 1. rewrite cleaned_again. now rewrite <- V1.
Qed.

(** X10. When there is at least one valid record, the text of
    [downloadAllValid], split at its newlines as [startProcessing] splits
    a file, is the list of the cleaned valid numbers; and when that text
    is loaded and processed in a run of its own (batch size at least 1,
    started with no run active and no timer of an earlier run pending,
    not cancelled, resumed to its end), every line of it is valid again,
    with the same cleaned number, and none is invalid. *)
Theorem valid_file_is_accepted_again (es : list event) (options : Options.t)
    (b : Z) (t0 t1 : float) (nows : list float) (st0 : state) :
  let pr := processedResults (run es initial) in
  let content := snd (downloadAllValid pr) in
  Results.valid pr <> [] ->
  Options.batchSize options = Int b ->
  (1 <= b)%Z ->
  currentFileContent st0 = Some content ->
  processingActive st0 = false ->
  timers st0 = [] ->
  (Z.of_nat (List.length (Results.valid pr))
   <= b * Z.of_nat (List.length nows))%Z ->
  let pr' :=
    processedResults
      (run (StartClicked options t0 t1 :: map TimerFired nows) st0) in
  split_lines content = map cleaned_of (Results.valid pr)
  /\ map cleaned_of (Results.valid pr') = map cleaned_of (Results.valid pr)
  /\ Results.invalid pr' = [].
Proof.
  cbn zeta. intros Hv Hb Hpos Hc Ha Ht Hlen.
  set (pr := processedResults (run es initial)) in *.
  set (cs := map cleaned_of (Results.valid pr)).
  assert (G : Forall (fun c => digit_only c = true /\ length c = 10
                               /\ isValidUSNumber c = true
                               /\ forall b, cleanPhoneNumber c b = c) cs)
    by (apply (reachable_cleaned es); auto).
  assert (Hcs : cs <> [])
    by (unfold cs; destruct (Results.valid pr); [easy | discriminate]).
  assert (S : split_lines (join_lines cs) = cs).
  { apply split_join; [exact Hcs|].
    eapply Forall_impl; [|exact G]. now intros c (A & _). }
  cbn [downloadAllValid snd] in *. fold cs in Hc |- *.
  assert (Hne : join_lines cs <> "").
  { intros E. rewrite E in S. cbn in S.
    rewrite <- S in G. inversion G as [|? ? (_ & L & _) _]. discriminate L. }
  split; [exact S|].
  destruct (run_of_file (join_lines cs) options b t0 t1 nows st0)
    as (R & _); try assumption.
  { rewrite S. unfold cs. now rewrite length_map. }
  cbn zeta in R. rewrite R, processLines_filter, S.
  assert (T : filter (fun line => negb (String.eqb line "")) (map trim cs)
              = cs).
  { clear -G. induction G as [|c cs (A & L & _) G IH]; [reflexivity|].
    cbn [map filter]. rewrite (trim_digit_only c A), IH.
    destruct c; [discriminate L | reflexivity]. }
  rewrite T.
  destruct (fold_accepted cs options) with
    (pr := Results.set_total (List.length cs) Results.empty) as [F1 F2].
  { eapply Forall_impl; [|exact G]. now intros c (_ & _ & A & B). }
  cbn zeta in F1, F2. rewrite F1, F2. split; reflexivity.
Qed.

(** *** The buttons of the states *)

Lemma partition_permutation {A : Type} (f : A -> bool) (l : list A) :
  Permutation (filter f l ++ filter (fun x => negb (f x)) l) l.
Proof.
  induction l as [|x l IH]; [reflexivity|].
  cbn [filter]. destruct (f x); cbn [negb app].
  - now constructor.
  - rewrite <- Permutation_middle. now constructor.
Qed.

Lemma entries_permutation {A : Type} (o : JsObject.t A) :
  Permutation (JsObject.entries o) o.
Proof.
  unfold JsObject.entries. rewrite sort_permutation.
  apply partition_permutation.
Qed.

Lemma compare_strings_positive (x y : string) :
  (0 <? compare_strings x y)%Z = true -> name_le y x.
Proof.
  unfold compare_strings, name_le, String.leb.
  rewrite (String.compare_antisym y x).
  now destruct (String.compare x y).
Qed.

Lemma compare_strings_not_positive (x y : string) :
  (0 <? compare_strings x y)%Z = false -> name_le x y.
Proof.
  unfold compare_strings, name_le, String.leb.
  now destruct (String.compare x y).
Qed.

Lemma insert_HdRel (y x : string) (l : list string) :
  HdRel name_le y l -> name_le y x ->
  HdRel name_le y (JsArray.insert compare_strings x l).
Proof.
  intros H Hx. destruct l as [|z l]; cbn [JsArray.insert];
    [now constructor|].
  destruct (0 <? compare_strings x z)%Z; constructor;
    [now apply HdRel_inv in H | exact Hx].
Qed.

Lemma insert_names_sorted (x : string) (l : list string) :
  Sorted name_le l -> Sorted name_le (JsArray.insert compare_strings x l).
Proof.
  induction 1 as [|y l S IH H]; cbn [JsArray.insert].
  - repeat constructor.
  - destruct (0 <? compare_strings x y)%Z eqn:E.
    + constructor; [exact IH|].
      apply insert_HdRel; [exact H | now apply compare_strings_positive].
    + constructor; [now constructor|].
      constructor. now apply compare_strings_not_positive.
Qed.

Lemma sort_names_sorted (l : list string) :
  Sorted name_le (JsArray.sort compare_strings l).
Proof.
  unfold JsArray.sort. induction l as [|x l IH]; cbn [fold_right];
    [constructor | now apply insert_names_sorted].
Qed.

Lemma button_states (pr : Results.t) :
  map fst (createStateButtons pr)
  = JsArray.sort compare_strings (object_keys (Results.byState pr)).
Proof.
  unfold createStateButtons. rewrite map_map. cbn [fst]. apply map_id.
Qed.

Lemma button_states_permutation (pr : Results.t) :
  Permutation (map fst (createStateButtons pr))
              (map fst (Results.byState pr)).
Proof.
  rewrite button_states, sort_permutation. unfold object_keys.
  apply Permutation_map, entries_permutation.
Qed.

(** What a button stands for, in a state of the page. *)
Lemma button_numbers (es : list event) (state : string) (count : nat) :
  let pr := processedResults (run es initial) in
  In (state, count) (createStateButtons pr) ->
  exists numbers,
    JsObject.get state (Results.byState pr) = Some numbers
    /\ count = List.length numbers
    /\ numbers <> []
    /\ forall r, In r numbers ->
                 In r (Results.valid pr) /\ state_of r = Some state.
Proof.
  cbn zeta. set (pr := processedResults (run es initial)). intros H.
  destruct (reachable_grouped es) as [N F]. fold pr in N, F.
  assert (K : In state (map fst (Results.byState pr))).
  { eapply Permutation_in; [apply button_states_permutation|].
    now apply (in_map fst) in H. }
  unfold createStateButtons in H. apply in_map_iff in H as (s & E & _).
  injection E as -> <-.
  destruct (JsObject.get state (Results.byState pr)) as [numbers|] eqn:G.
  - exists numbers. apply get_In in G. rewrite Forall_forall in F.
    destruct (F _ G) as [A B]. rewrite Forall_forall in B.
    repeat split; try assumption; now apply B.
  - now apply get_None in G.
Qed.

(** X11. In every state of the page [createStateButtons] makes one button
    for each key of [byState], in ascending order of the names as the
    code units order them; the count on a button is the number of records
    of its state, and it is at least 1. *)
Theorem state_buttons_are_sorted (es : list event) :
  let pr := processedResults (run es initial) in
  let buttons := createStateButtons pr in
  Sorted name_le (map fst buttons)
  /\ Permutation (map fst buttons) (map fst (Results.byState pr))
  /\ NoDup (map fst buttons)
  /\ forall state count,
       In (state, count) buttons ->
       1 <= count
       /\ exists numbers,
            JsObject.get state (Results.byState pr) = Some numbers
            /\ count = List.length numbers.
Proof.
  cbn zeta. split; [rewrite button_states; apply sort_names_sorted|].
  split; [apply button_states_permutation|].
  split.
  - eapply Permutation_NoDup;
      [symmetry; apply button_states_permutation|].
    now destruct (reachable_grouped es).
  - intros state count H.
    destruct (button_numbers es state count H) as (numbers & G & E & Ne & _).
    split; [|now exists numbers].
    subst count. destruct numbers; [easy | cbn [List.length]; lia].
Qed.




End DownloadFacts.

(** * The chart and the estimate of the time *)

Section ChartFacts.

Lemma slice_first_twenty {A : Type} (l : list A) :
  Num.slice (Int 0) (Int 20) l = firstn 20 l.
Proof.
  unfold Num.slice, Num.relative_index. cbn [Z.ltb Z.compare skipn].
  replace (Z.to_nat (Z.min 0 (Z.of_nat (List.length l)))) with 0 by lia.
  rewrite Nat.sub_0_r. cbn [skipn].
  destruct (Nat.le_gt_cases 20 (List.length l)) as [H|H].
  - f_equal. lia.
  - replace (Z.to_nat (Z.min 20 (Z.of_nat (List.length l))))
      with (List.length l) by lia.
    now rewrite !firstn_all2 by lia.
Qed.

Lemma descending_split (l1 l2 : list (string * list result)) :
  StronglySorted descending (l1 ++ l2) ->
  forall e e', In e l1 -> In e' l2 -> count_of e' <= count_of e.
Proof.
  induction l1 as [|x l1 IH]; intros S e e' He He'; [easy|].
  cbn [app] in S. apply StronglySorted_inv in S as [S F].
  destruct He as [<-|He]; [|now apply (IH S e e')].
  rewrite Forall_forall in F. apply F. apply in_or_app. now right.
Qed.

(** X13. [updateChart] does nothing without a chart; with one, it shows
    the first twenty states of the summary report, in the order of the
    report: twenty at most, none of them with fewer records than a state
    that is left out. *)
Theorem chart_shows_the_top_twenty (numbersChart : option chart)
    (pr : Results.t) :
  match numbersChart with
  | None => updateChart numbersChart pr = None
  | Some _ =>
      exists shown rest,
        updateChart numbersChart pr
        = Some (mkChart (map fst shown) (map count_of shown))
        /\ report_states pr = (shown ++ rest)%list
        /\ List.length shown = Nat.min 20 (List.length (report_states pr))
        /\ StronglySorted descending shown
        /\ forall e e', In e shown -> In e' rest ->
                        count_of e' <= count_of e
  end.
Proof.
  destruct numbersChart as [c|]; [|reflexivity].
  exists (firstn 20 (report_states pr)), (skipn 20 (report_states pr)).
  pose proof (sort_descending (JsObject.entries (Results.byState pr))) as S.
  fold (report_states pr) in S.
  rewrite <- (firstn_skipn 20 (report_states pr)) in S.
  split; [cbn [updateChart]; now rewrite slice_first_twenty|].
  split; [symmetry; apply firstn_skipn|].
  split; [apply length_firstn|].
  split; [|now apply descending_split].
  clear -S. induction (firstn 20 (report_states pr)) as [|x l IH];
    [constructor|].
  cbn [app] in S. apply StronglySorted_inv in S as [S F].
  constructor; [now apply IH|].
  rewrite Forall_forall in *. intros y Hy. apply F, in_or_app. now left.
Qed.

Lemma ceil_quotient_bounds (a b : N) :
  (0 < b)%N ->
  (b * ceil_quotient a b <= a + (b - 1)
   /\ a + (b - 1) < b * ceil_quotient a b + b)%N.
Proof.
  intros H. unfold ceil_quotient.
  pose proof (N.div_mod (a + (b - 1)) b ltac:(lia)) as E.
  pose proof (N.mod_lt (a + (b - 1)) b ltac:(lia)) as L.
  generalize dependent ((a + (b - 1)) / b)%N.
  generalize dependent ((a + (b - 1)) mod b)%N.
  intros r L q E. lia.
Qed.

(** X14. [estimateProcessingTime] speaks of seconds up to 2 950 000
    lines, whatever their number ("0 seconds", "1 seconds"), of
    "1 minute" from there up to 3 000 000 lines, and of two minutes or
    more, in the plural, beyond. *)
Theorem estimateProcessingTime_units (numLines : N) :
  ((numLines <= 2950000)%N ->
   (ceil_quotient numLines 50000 < 60)%N
   /\ estimateProcessingTime numLines
      = (decimal (ceil_quotient numLines 50000) ++ " seconds")%string)
  /\ ((2950000 < numLines <= 3000000)%N ->
      estimateProcessingTime numLines = "1 minute")
  /\ ((3000000 < numLines)%N ->
      (2 <= ceil_quotient (ceil_quotient numLines 50000) 60)%N
      /\ estimateProcessingTime numLines
         = (decimal (ceil_quotient (ceil_quotient numLines 50000) 60)
            ++ " minutes")%string).
Proof.
  unfold estimateProcessingTime.
  set (seconds := ceil_quotient numLines 50000).
  set (minutes := ceil_quotient seconds 60).
  pose proof (ceil_quotient_bounds numLines 50000 ltac:(reflexivity)) as Hs.
  pose proof (ceil_quotient_bounds seconds 60 ltac:(reflexivity)) as Hm.
  fold seconds in Hs. fold minutes in Hm.
  change (50000 - 1)%N with 49999%N in Hs. change (60 - 1)%N with 59%N in Hm.
  split; [|split]; intros H.
  - assert (L : (seconds < 60)%N) by lia.
    split; [exact L|]. apply N.ltb_lt in L. now rewrite L.
  - assert (L : (seconds = 60)%N) by lia.
    assert (M : (minutes = 1)%N) by lia.
    rewrite L in *. now rewrite M.
  - assert (L : (60 < seconds)%N) by lia.
    assert (M : (2 <= minutes)%N) by lia.
    split; [exact M|].
    destruct (N.ltb_spec seconds 60) as [|_]; [lia|].
    destruct (N.ltb_spec 1 minutes) as [_|]; [reflexivity | lia].
Qed.

End ChartFacts.

(** * Cancelling and starting again *)

Section CancelFacts.
Context {D : AreaCodeDirectory}.

(** X15. The turn of a run that finds itself cancelled processes no line:
    the records and the counters stay as the cancellation found them, the
    timer of the run is used up and the script is not active. *)
Theorem cancelled_run_keeps_partial_results (t : task) (rest : list task)
    (now : float) (st : state) :
  timers st = t :: rest ->
  processingCancelled st = true ->
  let st' := resume now st in
  processedResults st' = processedResults st
  /\ processedCount st' = processedCount st
  /\ blankSkipped st' = blankSkipped st
  /\ timers st' = rest
  /\ processingActive st' = false.
Proof.
  intros Ht Hc. cbn zeta. unfold resume. rewrite Ht.
  rewrite loop_cancelled by exact Hc. repeat split.
Qed.

Lemma loop_keeps_timers (t : task) (now : float) (st : state) :
  processingCancelled (loop t now st) = processingCancelled st
  /\ exists more, timers (loop t now st) = (timers st ++ more)%list.
Proof.
  unfold loop.
  destruct (Num.lt (t_batchIndex t) (t_totalBatches t));
    [|split; [reflexivity | exists []; now rewrite app_nil_r]].
  destruct (processingCancelled st) eqn:C;
    [split; [exact C | exists []; now rewrite app_nil_r]|].
  match goal with |- context [processBatch ?b ?o st] =>
    destruct (processBatch_frame b o st) as (_ & F2 & _ & F4 & _)
  end.
  cbn zeta in F2, F4.
  cbn [set_timers updateProgressUI show processingCancelled timers].
  rewrite F2, F4. split; [exact C | now eexists].
Qed.

(** X16. [cancelProcessing] leaves the timer of the cancelled run in
    place, and the next [startProcessing] clears the flag that would stop
    it: when a file is loaded and a run is cancelled and started again
    before the pending timer has fired, that timer is still the first to
    fire and finds [processingCancelled] false, so that the cancelled run
    goes on beside the new one. *)
Theorem restart_revives_cancelled_run (t : task) (rest : list task)
    (content : string) (options : Options.t) (t0 t1 : float) (st : state) :
  timers st = t :: rest ->
  currentFileContent st = Some content ->
  content <> "" ->
  let st' := run [CancelClicked; StartClicked options t0 t1] st in
  processingCancelled st' = false
  /\ exists more, timers st' = (t :: rest ++ more)%list.
Proof.
  intros Ht Hc Hne. cbn zeta. cbn [run fold_left step].
  destruct (startProcessing_enters options t0 t1 content (cancelProcessing st))
    as (s & -> & S1 & S2 & S3 & _); try assumption; try reflexivity.
  unfold processInBatches.
  match goal with |- context [loop ?task t1 s] =>
    destruct (loop_keeps_timers task t1 s) as (L1 & more & L2)
  end.
  rewrite L1, L2, S3. split; [exact S2|].
  exists more. cbn [cancelProcessing show timers]. now rewrite Ht.
Qed.

End CancelFacts.

(** * More of the definitions at work *)

(** A run of two lines that is cancelled and started again before its
    timer has fired: both runs go on, and three valid numbers are counted
    in a file of two lines. *)
Example restart_example :
  let st :=
    sample_run (started_events
                ++ [CancelClicked;
                    StartClicked (sample_options 1) (ms 1020) (ms 1021);
                    TimerFired (ms 1032); TimerFired (ms 1033);
                    TimerFired (ms 1034); TimerFired (ms 1035)]) in
  Results.stats (processedResults st)
  = Stats.mk 2 3 0 ["New York"; "Minnesota"]
  /\ timers st = [].
Proof. vm_compute. split; reflexivity. Qed.

Example estimate_examples :
  estimateProcessingTime 0 = "0 seconds"
  /\ estimateProcessingTime 1 = "1 seconds"
  /\ estimateProcessingTime 2950001 = "1 minute"
  /\ estimateProcessingTime 10000000 = "4 minutes".
Proof. repeat split; vm_compute; reflexivity. Qed.

Example buttons_example :
  createStateButtons (processedResults (sample_run completed_events))
  = [("Minnesota", 1); ("New York", 1)].
Proof. vm_compute. reflexivity. Qed.

Example download_example :
  downloadStateNumbers "New York"
    (processedResults (sample_run completed_events))
  = Some ("new-york-numbers.txt", "2125551234")
  /\ downloadStateNumbers "Texas"
       (processedResults (sample_run completed_events))
     = None.
Proof. vm_compute. split; reflexivity. Qed.

(** * More instances *)

Lemma records_are_classified_witness :
  exists o c,
    ValidResult "2125551234" "2125551234" "212" "New York"
    = ValidResult o c (substring 0 3 c)
        (@getStateFromAreaCode sample_directory (substring 0 3 c))
    /\ (forall b, c = cleanPhoneNumber o b)
    /\ isValidUSNumber (D := sample_directory) c = true
    /\ digit_only c = true
    /\ length c = 10.
Proof.
  apply (proj1 (records_are_classified (D := sample_directory)
                  completed_events
                  (ValidResult "2125551234" "2125551234" "212" "New York"))).
  vm_compute. now left.
Defined.

Lemma states_are_those_of_valid_witness :
  exists r,
    In r (Results.valid (processedResults (sample_run completed_events)))
    /\ state_of r = Some "Minnesota".
Proof.
  unfold sample_run.
  destruct (states_are_those_of_valid (D := sample_directory)
              completed_events) as [_ H].
  apply (proj1 (H "Minnesota")).
  vm_compute. right. now left.
Defined.

Lemma byState_is_grouped_witness :
  [ValidResult "6125544556" "6125544556" "612" "Minnesota"] <> []
  /\ forall r,
       In r [ValidResult "6125544556" "6125544556" "612" "Minnesota"] ->
       In r (Results.valid (processedResults (sample_run completed_events)))
       /\ state_of r = Some "Minnesota".
Proof.
  apply (proj2 (byState_is_grouped (D := sample_directory) completed_events)
               "Minnesota").
  vm_compute. reflexivity.
Defined.

Lemma completed_run_is_sequential_witness :
  processedResults
    (run (D := sample_directory)
         (StartClicked (sample_options 1) (ms 1000) (ms 1016)
          :: map TimerFired [ms 1032; ms 1048])
         (sample_run [FileLoaded blank_then_number]))
  = fold_left
      (fun pr line =>
         processSingleNumber (D := sample_directory) line (sample_options 1) pr)
      (filter (fun line => negb (String.eqb line ""))
              (map trim (split_lines blank_then_number)))
      (Results.set_total (List.length (split_lines blank_then_number))
                         Results.empty).
Proof.
  apply (completed_run_is_sequential (D := sample_directory)
           blank_then_number (sample_options 1) 1);
    [reflexivity | lia | reflexivity | discriminate
    | reflexivity | reflexivity | vm_compute; discriminate].
Defined.

Lemma completed_run_shows_progress_per_batch_witness :
  let st :=
    run (D := sample_directory)
        (StartClicked (sample_options 1) (ms 1000) (ms 1016)
         :: map TimerFired [ms 1032; ms 1048])
        (sample_run [FileLoaded two_numbers]) in
  exists shown,
    log st
    = (log (sample_run [FileLoaded two_numbers]) ++ shown
       ++ [ResultsShown (processedResults st)])%list
    /\ Num.ceil_div (List.length (split_lines two_numbers))
                    (Options.batchSize (sample_options 1))
       = Int (Z.of_nat (List.length shown))
    /\ forallb is_progress shown = true.
Proof.
  apply (completed_run_shows_progress_per_batch (D := sample_directory)
           two_numbers (sample_options 1) 1);
    [reflexivity | lia | reflexivity | discriminate
    | reflexivity | reflexivity | vm_compute; discriminate].
Defined.

Lemma completed_run_groups_by_state_witness :
  JsObject.get "New York"
    (Results.byState
       (processedResults
          (run (D := sample_directory)
               (StartClicked (sample_options 1) (ms 1000) (ms 1016)
                :: map TimerFired [ms 1032; ms 1048])
               (sample_run [FileLoaded two_numbers]))))
  = Some [ValidResult "2125551234" "2125551234" "212" "New York"].
Proof.
  destruct (completed_run_groups_by_state (D := sample_directory)
              two_numbers (sample_options 1) 1 (ms 1000) (ms 1016)
              [ms 1032; ms 1048] (sample_run [FileLoaded two_numbers]))
    as [G _];
    [reflexivity | lia | reflexivity | discriminate
    | reflexivity | reflexivity | vm_compute; discriminate |].
  rewrite (G eq_refl "New York"). vm_compute. reflexivity.
Defined.

Lemma valid_file_is_accepted_again_witness :
  let pr :=
    processedResults (run (D := sample_directory) completed_events initial) in
  let content := snd (downloadAllValid pr) in
  let pr' :=
    processedResults
      (run (D := sample_directory)
           (StartClicked (sample_options 5) (ms 2000) (ms 2016)
            :: map TimerFired [ms 2032])
           (mkState false false (Some content) pr (ms 1000) 2 (ms 1000)
                    [] [] 0)) in
  split_lines content = map cleaned_of (Results.valid pr)
  /\ map cleaned_of (Results.valid pr') = map cleaned_of (Results.valid pr)
  /\ Results.invalid pr' = [].
Proof.
  exact (valid_file_is_accepted_again (D := sample_directory)
           completed_events (sample_options 5) 5 (ms 2000) (ms 2016)
           [ms 2032]
           (mkState false false
              (Some (snd (downloadAllValid
                            (processedResults
                               (run (D := sample_directory)
                                    completed_events initial)))))
              (processedResults
                 (run (D := sample_directory) completed_events initial))
              (ms 1000) 2 (ms 1000) [] [] 0)
           ltac:(vm_compute; discriminate) eq_refl ltac:(lia)
           eq_refl eq_refl eq_refl ltac:(vm_compute; discriminate)).
Defined.

Lemma state_buttons_are_sorted_witness :
  1 <= 1
  /\ exists numbers,
       JsObject.get "Minnesota"
         (Results.byState (processedResults (sample_run completed_events)))
       = Some numbers
       /\ 1 = List.length numbers.
Proof.
  apply (proj2 (proj2 (proj2
           (state_buttons_are_sorted (D := sample_directory)
              completed_events))) "Minnesota" 1).
  vm_compute. now left.
Defined.


Lemma estimateProcessingTime_units_witness :
  estimateProcessingTime 2975000 = "1 minute"
  /\ estimateProcessingTime 100000 = "2 seconds".
Proof.
  split.
  - apply (proj1 (proj2 (estimateProcessingTime_units 2975000))). lia.
  - destruct (proj1 (estimateProcessingTime_units 100000)) as [_ E]; [lia|].
    rewrite E. vm_compute. reflexivity.
Defined.

Lemma cancelled_run_keeps_partial_results_witness :
  let st := sample_run (started_events ++ [CancelClicked]) in
  let st' := resume (D := sample_directory) (ms 1032) st in
  processedResults st' = processedResults st
  /\ processedCount st' = processedCount st
  /\ blankSkipped st' = blankSkipped st
  /\ timers st' = []
  /\ processingActive st' = false.
Proof.
  cbn zeta.
  eapply (cancelled_run_keeps_partial_results (D := sample_directory));
    vm_compute; reflexivity.
Defined.

Lemma restart_revives_cancelled_run_witness :
  let st := sample_run started_events in
  let st' :=
    run (D := sample_directory)
        [CancelClicked; StartClicked (sample_options 1) (ms 1020) (ms 1021)]
        st in
  processingCancelled st' = false
  /\ exists more,
       timers st'
       = (mkTask (split_lines two_numbers) (sample_options 1) (Int 2) 0
          :: [] ++ more)%list.
Proof.
  cbn zeta.
  apply (restart_revives_cancelled_run (D := sample_directory) _ _
           two_numbers);
    [vm_compute; reflexivity | vm_compute; reflexivity | discriminate].
Defined.

Lemma summary_report_lines_witness :
  let pr :=
    processedResults
      (run (D := sample_directory)
           (StartClicked (sample_options 10) (ms 1000) (ms 1016)
            :: map TimerFired [ms 1032])
           (run (D := sample_directory) [FileLoaded two_numbers] initial)) in
  JsObject.entries (Results.byState pr) = Results.byState pr
  /\ StronglySorted descending (report_states pr)
  /\ map fst (Results.byState pr)
     = first_occurrences
         (states_in_file (D := sample_directory) (sample_options 10)
                         two_numbers).
Proof.
  cbn zeta.
  match goal with |- context [Results.byState ?r] =>
    destruct (summary_report_lines (D := sample_directory) "" r)
      as (_ & H2 & _ & H4 & H5 & _)
  end.
  split; [apply H4; vm_compute; reflexivity|].
  split; [exact H2|].
  apply (H5 two_numbers (sample_options 10) 10%Z (ms 1000) (ms 1016)
            [ms 1032]
            (run (D := sample_directory) [FileLoaded two_numbers] initial));
    [reflexivity | lia | reflexivity | reflexivity | discriminate
    | reflexivity | reflexivity | vm_compute; discriminate | reflexivity].
Defined.
